(** * tg-trade-bot-websocket: the position lifecycle of [main.py]

    A shallow embedding of the [TradingBot] class and of the Telegram
    command handlers of [src/main.py], and the properties of the position
    lifecycle proved about it.

    - Python [float] is IEEE 754 binary64: prices are Rocq's primitive
      [float], with the arithmetic the source writes.
    - The fields of the [TradingBot] object are a record; every coroutine
      is cut at its suspension points ([asyncio.sleep], [asyncio.wait_for],
      and the first [message.answer] of [/trade]) into segments that run
      atomically, as the asyncio event loop runs them.
    - Calls into the libraries (logger, pybit sockets, aiogram replies,
      [Event.clear]) are appended to a trace. They are assumed to return
      normally; the chat replies that end a handler and the Telegram
      notification are recorded without a suspension of their own.
    - The pybit callbacks [handle_orderbook] and [handle_order_response]
      are delivered between two segments.
    - Python exceptions are explicit: a segment returns a value or raises,
      and keeps the state it reached when it raises. *)

From Stdlib Require Import PrimFloat ZArith Ascii String List Bool Lia.
From stdpp Require Import base option list strings.

Open Scope string_scope.
Open Scope list_scope.

(** ** Data model *)

(** [self.orderbook_data]: the dict [{"bid": .., "ask": ..}]; both keys are
    always present and hold [None] until the first update. *)
Record Quote := mkQuote {
  bid : option float;
  ask : option float
}.

(** [self.active_position]: the dict built at lines 145-151. *)
Record Position := mkPosition {
  order_id : string;
  symbol : string;
  amount : float;
  entry_price : float;
  target_price : float
}.

(** The message pybit passes to the order callback. [reqId] names the
    request the gateway answers; the source never reads it. *)
Record OrderData := mkOrderData {
  orderId : option string
}.

Record OrderMessage := mkOrderMessage {
  reqId : nat;
  retCode : option Z;
  retMsg : string;
  data : option OrderData
}.

(** The message pybit passes to the order book callback: under ["data"],
    the levels ['b'] and ['a'], each level a list [[price, size]] of
    strings. *)
Record BookData := mkBookData {
  levels_b : option (list (list string));
  levels_a : option (list (list string))
}.

Record BookMessage := mkBookMessage {
  book_data : option BookData
}.

Inductive Side := Buy | Sell.

Inductive Exc :=
| TypeError | KeyError | IndexError | ValueError | ZeroDivisionError.

Inductive LogLevel := DEBUG | INFO | WARNING | ERROR.

(** The texts given to [logger], one constructor per call site, carrying
    the values the f-string interpolates. *)
Inductive LogText :=
| Incomplete_orderbook_data_received
| Orderbook_data_received (q : Quote)
| Error_in_handle_orderbook (e : Exc)
| Subscribing_to_orderbook
| Subscribed_to_order_book (sym : string)
| Cannot_open_position_no_orderbook_data
| Timeout_waiting_for_order_response
| Opened_new_position (p : option Position)
| Error_opening_position (r : option OrderMessage)
| Error_in_open_position (e : Exc)
| No_orderbook_data_available_for_monitoring
| Position_closed_successfully_position (p : option Position)
| Error_in_monitor_position (e : Exc)
| Timeout_waiting_for_close_position_response
| Position_closed_successfully (r : option OrderMessage)
| Error_closing_position (r : option OrderMessage)
| Error_in_close_position (e : Exc)
| Sent_notification_to_Telegram
| Error_while_sending_notification_to_Telegram (e : Exc)
| Error_in_status_command (e : Exc)
| Error_in_trade_command (e : Exc).

(** The texts given to [message.answer]. *)
Inductive Reply :=
| A_position_is_already_open
| Opening_a_position_please_wait
| Position_opened (sym : string) (entry target : float)
| Could_not_open_the_position
| An_error_occurred_while_opening_a_position
| Cannot_get_current_price
| Current_position (sym : string) (entry target current profit : float)
| No_open_position
| An_error_occurred_while_checking_the_position_status.

(** The text given to [send_notification] at lines 182-187. *)
Record Notice := mkNotice {
  notice_symbol : string;
  notice_profit : float;
  notice_entry : float;
  notice_target : float;
  notice_exit : option float
}.

(** Calls that leave the bot object. *)
Inductive Effect :=
| Log (lvl : LogLevel) (text : LogText)
| Orderbook_stream (depth : Z) (sym : string)
| Order_response_event_clear
| Place_order (side : Side) (sym : string) (qty : float)
| Answer (r : Reply)
| Send_message (n : Notice).

(** A suspended coroutine, named after the await it is suspended at,
    with the locals it still needs. [woken] records that
    [order_response_event.set()] ran while the coroutine was waiting. *)
Inductive Task :=
| Finished
| Trade_new
| Trade_answer_wait
| Trade_open_sleep
| Trade_open_wait (orderbook : Quote) (woken : bool)
| Status_new
| Monitor_new
| Monitor_sleep
| Monitor_close_wait (order_book : Quote) (current_price : float) (woken : bool).

(** What a segment of a coroutine ends with: the coroutine returned, or
    it is suspended again. *)
Inductive Step (A : Type) :=
| Returned (a : A)
| Suspended (t : Task).
Arguments Returned {A} a.
Arguments Suspended {A} t.

Record TradingBot := mkBot {
  active_position : option Position;
  orderbook_data : Quote;
  orderbook_event : bool;
  is_subscribed : bool;
  order_response_event : bool;
  order_response : option OrderMessage
}.

(** [TradingBot.__init__], lines 34-43. *)
Definition init_bot : TradingBot :=
  {| active_position := None;
     orderbook_data := mkQuote None None;
     orderbook_event := false;
     is_subscribed := false;
     order_response_event := false;
     order_response := None |}.

(** The process: the bot object, the tasks of the event loop, and the
    calls made so far. *)
Record World := mkWorld {
  bot : TradingBot;
  pool : list Task;
  trace : list Effect
}.

Definition init_world : World := mkWorld init_bot [] [].

(** ** Statements that can raise *)

Inductive result (A : Type) :=
| Return (a : A)
| Raise (e : Exc).
Arguments Return {A} a.
Arguments Raise {A} e.

Definition M (A : Type) : Type := World -> result A * World.

#[global] Instance M_ret : MRet M := fun A a w => (Return a, w).

#[global] Instance M_bind : MBind M := fun A B f m w =>
  match m w with
  | (Return a, w') => f a w'
  | (Raise e, w') => (Raise e, w')
  end.

Definition raise {A : Type} (e : Exc) : M A := fun w => (Raise e, w).

(** [try: body  except Exception as e: handler e] *)
Definition try_except {A : Type} (body : M A) (handler : Exc -> M A) : M A :=
  fun w =>
    match body w with
    | (Return a, w') => (Return a, w')
    | (Raise e, w') => handler e w'
    end.

Definition self : M TradingBot := fun w => (Return (bot w), w).

Definition update_bot (f : TradingBot -> TradingBot) : M unit :=
  fun w => (Return tt, mkWorld (f (bot w)) (pool w) (trace w)).

Definition emit (e : Effect) : M unit :=
  fun w => (Return tt, mkWorld (bot w) (pool w) (trace w ++ [e])).

Definition logger (lvl : LogLevel) (text : LogText) : M unit :=
  emit (Log lvl text).

Definition answer (r : Reply) : M unit := emit (Answer r).

Definition set_active_position (v : option Position) (s : TradingBot) : TradingBot :=
  mkBot v (orderbook_data s) (orderbook_event s) (is_subscribed s)
        (order_response_event s) (order_response s).

Definition set_orderbook_data (q : Quote) (s : TradingBot) : TradingBot :=
  mkBot (active_position s) q (orderbook_event s) (is_subscribed s)
        (order_response_event s) (order_response s).

Definition set_orderbook_event (v : bool) (s : TradingBot) : TradingBot :=
  mkBot (active_position s) (orderbook_data s) v (is_subscribed s)
        (order_response_event s) (order_response s).

Definition set_is_subscribed (v : bool) (s : TradingBot) : TradingBot :=
  mkBot (active_position s) (orderbook_data s) (orderbook_event s) v
        (order_response_event s) (order_response s).

Definition set_order_response_event (v : bool) (s : TradingBot) : TradingBot :=
  mkBot (active_position s) (orderbook_data s) (orderbook_event s)
        (is_subscribed s) v (order_response s).

Definition set_order_response (v : option OrderMessage) (s : TradingBot) : TradingBot :=
  mkBot (active_position s) (orderbook_data s) (orderbook_event s)
        (is_subscribed s) (order_response_event s) v.

(** ** Python values *)

(** [bool(x)] of a price slot: [None] and a float equal to zero (either
    sign) are falsy, every other float, NaN included, is truthy. *)
Definition truthy_price (v : option float) : bool :=
  match v with
  | Some f => negb (f =? 0)%float
  | None => false
  end.

(** [bool(x)] of a slot holding a list, a dict or [None]. *)
Definition truthy_list {A : Type} (v : option (list A)) : bool :=
  match v with
  | Some (_ :: _) => true
  | _ => false
  end.

Definition truthy_dict {A : Type} (v : option A) : bool :=
  match v with
  | Some _ => true
  | None => false
  end.

(** [l[0]] *)
Definition first {A : Type} (l : list A) : M A :=
  match l with
  | x :: _ => mret x
  | [] => raise IndexError
  end.

(** [d[key]] where [d] may be [None] *)
Definition subscript {A B : Type} (d : option A) (key : A -> B) : M B :=
  match d with
  | Some x => mret (key x)
  | None => raise TypeError
  end.

(** [x / y] on floats *)
Definition truediv (x y : float) : M float :=
  if (y =? 0)%float then raise ZeroDivisionError else mret (x / y)%float.

(** An operand of float arithmetic that may be [None] *)
Definition operand (v : option float) : M float :=
  match v with
  | Some f => mret f
  | None => raise TypeError
  end.

(** ** The bot *)

Section Bot.

(** Lines 20-22: read once from the environment. *)
Variable SYMBOL : string.
Variable TARGET_PROFIT_PERCENT : float.
Variable AMOUNT : float.

(** Python's builtin [float(s)] on a string: a float, or [ValueError]. *)
Variable float_of : string -> option float.

Definition py_float (s : string) : M float :=
  match float_of s with
  | Some f => mret f
  | None => raise ValueError
  end.

(** [handle_orderbook], lines 45-64. *)
Definition handle_orderbook (message : BookMessage) : M unit :=
  try_except
    (let orderbook_data := default (mkBookData None None) (book_data message) in
     if negb (truthy_list (levels_b orderbook_data))
        || negb (truthy_list (levels_a orderbook_data))
     then logger WARNING Incomplete_orderbook_data_received
     else
       b0 ← first (default [] (levels_b orderbook_data));
       b00 ← first b0;
       bid ← py_float b00;
       a0 ← first (default [] (levels_a orderbook_data));
       a00 ← first a0;
       ask ← py_float a00;
       update_bot (set_orderbook_data (mkQuote (Some bid) (Some ask)));;
       update_bot (set_orderbook_event true);;
       logger DEBUG (Orderbook_data_received (mkQuote (Some bid) (Some ask))))
    (fun e => logger ERROR (Error_in_handle_orderbook e)).

(** [asyncio.Event.set()] on [order_response_event]: the flag is raised
    and every coroutine waiting on the event is woken. *)
Definition wake (t : Task) : Task :=
  match t with
  | Trade_open_wait orderbook _ => Trade_open_wait orderbook true
  | Monitor_close_wait order_book current_price _ =>
      Monitor_close_wait order_book current_price true
  | _ => t
  end.

Definition order_response_event_set : M unit :=
  fun w => (Return tt,
            mkWorld (set_order_response_event true (bot w))
                    (map wake (pool w)) (trace w)).

(** [order_response_event.clear()] *)
Definition order_response_event_clear : M unit :=
  emit Order_response_event_clear;;
  update_bot (set_order_response_event false).

(** [handle_order_response], lines 66-73. *)
Definition handle_order_response (message : OrderMessage) : M unit :=
  update_bot (set_order_response (Some message));;
  order_response_event_set.

(** [subscribe_to_orderbook], lines 75-85. The call to the socket is
    taken to return, so the [except] that logs and re-raises is not
    entered. *)
Definition subscribe_to_orderbook : M unit :=
  s ← self;
  if negb (is_subscribed s) then
    logger INFO Subscribing_to_orderbook;;
    emit (Orderbook_stream 50 SYMBOL);;
    update_bot (set_is_subscribed true);;
    logger INFO (Subscribed_to_order_book SYMBOL)
  else mret tt.

(** [get_order_book], lines 87-93. *)
Definition get_order_book : M Quote :=
  s ← self;
  mret (orderbook_data s).

(** [calculate_target_price], lines 95-104. *)
Definition calculate_target_price (entry_price : float) : float :=
  (entry_price * (1 + TARGET_PROFIT_PERCENT / 100))%float.

(** [ws_private.place_order(...)], lines 126-134 and 205-213. *)
Definition place_order (side : Side) : M unit :=
  emit (Place_order side SYMBOL AMOUNT).

(** [asyncio.create_task(coro)] *)
Definition create_task (t : Task) : M unit :=
  fun w => (Return tt, mkWorld (bot w) (pool w ++ [t]) (trace w)).

(** The [except Exception] of [open_position], lines 159-161. *)
Definition open_position_except (body : M (Step bool)) : M (Step bool) :=
  try_except body
    (fun e => logger ERROR (Error_in_open_position e);; mret (Returned false)).

(** [open_position], lines 112-114: up to [await asyncio.sleep(1)]. *)
Definition open_position_start : M (Step bool) :=
  open_position_except
    (subscribe_to_orderbook;;
     mret (Suspended Trade_open_sleep)).

(** [open_position], lines 116-138: from the end of the sleep to
    [await asyncio.wait_for(self.order_response_event.wait(), 2.0)]. *)
Definition open_position_after_sleep : M (Step bool) :=
  open_position_except
    (s ← self;
     let orderbook := orderbook_data s in
     if negb (truthy_price (bid orderbook)) || negb (truthy_price (ask orderbook))
     then
       logger ERROR Cannot_open_position_no_orderbook_data;;
       mret (Returned false)
     else
       order_response_event_clear;;
       place_order Buy;;
       mret (Suspended (Trade_open_wait orderbook false))).

(** [self.order_response and self.order_response.get('retCode') == 0] *)
Definition response_ok (r : option OrderMessage) : bool :=
  match r with
  | Some m => bool_decide (retCode m = Some 0%Z)
  | None => false
  end.

(** [self.order_response['data']['orderId']] *)
Definition response_order_id (r : option OrderMessage) : M string :=
  m ← subscript r (fun m => m);
  match data m with
  | Some d =>
      match orderId d with
      | Some i => mret i
      | None => raise KeyError
      end
  | None => raise KeyError
  end.

(** [open_position], lines 137-157: from the end of the wait on.
    [timed_out] says that [wait_for] raised [asyncio.TimeoutError]. *)
Definition open_position_after_wait (orderbook : Quote) (timed_out : bool)
  : M (Step bool) :=
  open_position_except
    (if timed_out then
       logger ERROR Timeout_waiting_for_order_response;;
       mret (Returned false)
     else
       s ← self;
       if response_ok (order_response s) then
         let entry_price := ask orderbook in
         oid ← response_order_id (order_response s);
         entry ← operand entry_price;
         let position :=
           {| order_id := oid;
              symbol := SYMBOL;
              amount := AMOUNT;
              entry_price := entry;
              target_price := calculate_target_price entry |} in
         update_bot (set_active_position (Some position));;
         logger INFO (Opened_new_position (Some position));;
         create_task Monitor_new;;
         mret (Returned true)
       else
         logger ERROR (Error_opening_position (order_response s));;
         mret (Returned false)).

(** The [except Exception] of [close_position], lines 229-231. *)
Definition close_position_except (body : M (Step bool)) : M (Step bool) :=
  try_except body
    (fun e => logger ERROR (Error_in_close_position e);; mret (Returned false)).

(** [close_position], lines 202-216: up to
    [await asyncio.wait_for(self.order_response_event.wait(), 10.0)].
    The coroutine that awaits it is [monitor_position], whose locals
    the suspended task keeps. *)
Definition close_position_start (order_book : Quote) (current_price : float)
  : M (Step bool) :=
  close_position_except
    (order_response_event_clear;;
     place_order Sell;;
     mret (Suspended (Monitor_close_wait order_book current_price false))).

(** [close_position], lines 215-227: from the end of the wait on. *)
Definition close_position_after_wait (timed_out : bool) : M (Step bool) :=
  close_position_except
    (if timed_out then
       logger ERROR Timeout_waiting_for_close_position_response;;
       mret (Returned false)
     else
       s ← self;
       if response_ok (order_response s) then
         logger INFO (Position_closed_successfully (order_response s));;
         update_bot (set_active_position None);;
         mret (Returned true)
       else
         logger ERROR (Error_closing_position (order_response s));;
         mret (Returned false)).

(** [send_notification], lines 246-258. *)
Definition send_notification (message : Notice) : M unit :=
  try_except
    (emit (Send_message message);;
     logger INFO Sent_notification_to_Telegram)
    (fun e => logger ERROR (Error_while_sending_notification_to_Telegram e)).

(** The [except Exception] of [monitor_position], lines 192-194: the
    error is logged and the loop goes on after [asyncio.sleep(1)]. *)
Definition monitor_position_except (body : M Task) : M Task :=
  try_except body
    (fun e => logger ERROR (Error_in_monitor_position e);; mret Monitor_sleep).

(** [monitor_position], lines 165-176 and 190: from the head of the
    [while] to the next suspension. The dict [order_book] always has its
    two keys, so [not order_book] is false and the test of line 168 is the
    test of the bid. *)
Definition monitor_position_loop : M Task :=
  s ← self;
  if truthy_dict (active_position s) then
    monitor_position_except
      (order_book ← get_order_book;
       if negb (truthy_price (bid order_book)) then
         logger WARNING No_orderbook_data_available_for_monitoring;;
         mret Monitor_sleep
       else
         current_price ← operand (bid order_book);
         s ← self;
         target ← subscript (active_position s) target_price;
         if (target <=? current_price)%float then
           r ← close_position_start order_book current_price;
           match r with
           | Suspended t => mret t
           | Returned _ => mret Monitor_sleep
           end
         else mret Monitor_sleep)
  else mret Finished.

(** [monitor_position], lines 177-190: what follows the return of
    [close_position]. *)
Definition monitor_position_closed (success : bool) : M unit :=
  if success then
    s ← self;
    let exit_bid := bid (orderbook_data s) in
    entry ← subscript (active_position s) entry_price;
    exit_bid ← operand exit_bid;
    ratio ← truediv exit_bid entry;
    let profit_percentage := ((ratio - 1) * 100)%float in
    update_bot (set_active_position None);;
    s ← self;
    sym ← subscript (active_position s) symbol;
    entry ← subscript (active_position s) entry_price;
    target ← subscript (active_position s) target_price;
    send_notification
      (mkNotice sym profit_percentage entry target (bid (orderbook_data s)));;
    s ← self;
    logger INFO (Position_closed_successfully_position (active_position s))
  else mret tt.

(** [monitor_position], lines 176-194: from the end of the wait inside
    [close_position] to [await asyncio.sleep]. *)
Definition monitor_position_after_wait (timed_out : bool) : M Task :=
  monitor_position_except
    (r ← close_position_after_wait timed_out;
     match r with
     | Returned success =>
         monitor_position_closed success;;
         mret Monitor_sleep
     | Suspended t => mret t
     end).

(** [status_command], lines 273-299; the test of line 279 is the test
    of the bid, as in the monitoring loop. *)
Definition status_command : M Task :=
  try_except
    (s ← self;
     if truthy_dict (active_position s) then
       order_book ← get_order_book;
       if negb (truthy_price (bid order_book)) then
         answer Cannot_get_current_price;;
         mret Finished
       else
         current_price ← operand (bid order_book);
         s ← self;
         entry ← subscript (active_position s) entry_price;
         ratio ← truediv current_price entry;
         let current_profit := ((ratio - 1) * 100)%float in
         sym ← subscript (active_position s) symbol;
         target ← subscript (active_position s) target_price;
         answer (Current_position sym entry target current_price current_profit);;
         mret Finished
     else
       answer No_open_position;;
       mret Finished)
    (fun e =>
       logger ERROR (Error_in_status_command e);;
       answer An_error_occurred_while_checking_the_position_status;;
       mret Finished).

(** The [except Exception] of [trade_command], lines 322-324. *)
Definition trade_command_except (body : M Task) : M Task :=
  try_except body
    (fun e =>
       logger ERROR (Error_in_trade_command e);;
       answer An_error_occurred_while_opening_a_position;;
       mret Finished).

(** [trade_command], lines 306-310: the guard and the first reply. *)
Definition trade_command_start : M Task :=
  trade_command_except
    (s ← self;
     if truthy_dict (active_position s) then
       answer A_position_is_already_open;;
       mret Finished
     else
       answer Opening_a_position_please_wait;;
       mret Trade_answer_wait).

(** [trade_command], lines 312-320: the reply once [open_position] has
    returned. *)
Definition trade_command_reply (success : bool) : M unit :=
  if success then
    s ← self;
    sym ← subscript (active_position s) symbol;
    entry ← subscript (active_position s) entry_price;
    target ← subscript (active_position s) target_price;
    answer (Position_opened sym entry target)
  else answer Could_not_open_the_position.

(** [trade_command], lines 311-320: a segment of the awaited
    [open_position], and the reply once it has returned. *)
Definition trade_command_open (segment : M (Step bool)) : M Task :=
  trade_command_except
    (r ← segment;
     match r with
     | Suspended t => mret t
     | Returned success =>
         trade_command_reply success;;
         mret Finished
     end).

(** ** The event loop *)

(** The segment a task runs when the await it is suspended at completes.
    A wait on [order_response_event] completes only once woken. *)
Definition resume (t : Task) : option (M Task) :=
  match t with
  | Finished => None
  | Trade_new => Some trade_command_start
  | Trade_answer_wait => Some (trade_command_open open_position_start)
  | Trade_open_sleep => Some (trade_command_open open_position_after_sleep)
  | Trade_open_wait orderbook woken =>
      if woken then Some (trade_command_open (open_position_after_wait orderbook false))
      else None
  | Status_new => Some status_command
  | Monitor_new => Some monitor_position_loop
  | Monitor_sleep => Some monitor_position_loop
  | Monitor_close_wait _ _ woken =>
      if woken then Some (monitor_position_after_wait false) else None
  end.

(** The segment a task runs when the timeout of its [wait_for] fires
    before the event is set. *)
Definition expire (t : Task) : option (M Task) :=
  match t with
  | Trade_open_wait orderbook false =>
      Some (trade_command_open (open_position_after_wait orderbook true))
  | Monitor_close_wait _ _ false => Some (monitor_position_after_wait true)
  | _ => None
  end.

(** Run a segment as task [i]; an exception that escapes ends the task. *)
Definition run_task (i : nat) (segment : M Task) (w : World) : World :=
  match segment w with
  | (Return t, w') => mkWorld (bot w') (<[i := t]> (pool w')) (trace w')
  | (Raise _, w') => mkWorld (bot w') (<[i := Finished]> (pool w')) (trace w')
  end.

Inductive Event :=
| Cmd_trade
| Cmd_status
| Feed (message : BookMessage)
| Confirm (message : OrderMessage)
| Run (i : nat)
| Timeout (i : nat).

(** One step of the process; [None] when the event cannot happen. *)
Definition step (ev : Event) (w : World) : option World :=
  match ev with
  | Cmd_trade => Some (mkWorld (bot w) (pool w ++ [Trade_new]) (trace w))
  | Cmd_status => Some (mkWorld (bot w) (pool w ++ [Status_new]) (trace w))
  | Feed message => Some (snd (handle_orderbook message w))
  | Confirm message => Some (snd (handle_order_response message w))
  | Run i =>
      t ← pool w !! i;
      segment ← resume t;
      Some (run_task i segment w)
  | Timeout i =>
      t ← pool w !! i;
      segment ← expire t;
      Some (run_task i segment w)
  end.

Fixpoint run (evs : list Event) (w : World) : option World :=
  match evs with
  | [] => Some w
  | ev :: evs' =>
      match step ev w with
      | Some w' => run evs' w'
      | None => None
      end
  end.

(** ** The states of the specification, read off the process *)

Inductive Lifecycle := Idle | Opening | Open | Closing.

Definition is_opening (t : Task) : bool :=
  match t with
  | Trade_answer_wait | Trade_open_sleep | Trade_open_wait _ _ => true
  | _ => false
  end.

Definition is_closing (t : Task) : bool :=
  match t with
  | Monitor_close_wait _ _ _ => true
  | _ => false
  end.

(** The source keeps no state variable: a position is held ([Open], or
    [Closing] while a sell is awaited), or none is ([Opening] while a
    [/trade] handler is inside [open_position], [Idle] otherwise). *)
Definition lifecycle (w : World) : Lifecycle :=
  match active_position (bot w) with
  | Some _ => if existsb is_closing (pool w) then Closing else Open
  | None => if existsb is_opening (pool w) then Opening else Idle
  end.

(** ** Vocabulary of the statements *)

(** The price a message carries for one side, [levels[0][0]] read as a
    float, when the level list, its first level and a number are there. *)
Definition top_price (levels : option (list (list string))) : option float :=
  match levels with
  | Some ((s :: _) :: _) => float_of s
  | _ => None
  end.

(** The ['b'] and ['a'] entries of a message, [None] when absent. *)
Definition message_levels (message : BookMessage)
  : option (list (list string)) * option (list (list string)) :=
  match book_data message with
  | Some d => (levels_b d, levels_a d)
  | None => (None, None)
  end.

(** A price slot that is unset or holds a float equal to zero. *)
Definition unavailable (v : option float) : Prop :=
  v = None \/ exists f, v = Some f /\ (f =? 0)%float = true.

(** The position after a transition: the record it held, none, or a
    record built from the ask of [orderbook] by [calculate_target_price]. *)
Definition position_step (orderbook : Quote) (w w' : World) : Prop :=
  active_position (bot w') = active_position (bot w)
  \/ active_position (bot w') = None
  \/ exists oid a,
       ask orderbook = Some a
       /\ active_position (bot w')
          = Some (mkPosition oid SYMBOL AMOUNT a (calculate_target_price a)).

(** The world after a segment appended [effects] and nothing else. *)
Definition said (w : World) (effects : list Effect) : World :=
  mkWorld (bot w) (pool w) (trace w ++ effects).

(** Number of orders given to the gateway so far. *)
Definition is_place_order (e : Effect) : bool :=
  match e with
  | Place_order _ _ _ => true
  | _ => false
  end.

Definition orders_sent (w : World) : nat :=
  length (List.filter is_place_order (trace w)).

(** Whether a task waits on [order_response_event], and if so whether it
    has been woken. *)
Definition waits_on_event (t : Task) : option bool :=
  match t with
  | Trade_open_wait _ woken => Some woken
  | Monitor_close_wait _ _ woken => Some woken
  | _ => None
  end.

Definition is_send_message (e : Effect) : bool :=
  match e with
  | Send_message _ => true
  | _ => false
  end.

End Bot.

(** ** A concrete configuration *)

(** Decimal literals [[-]digits[.digits]]: the digits are accumulated and
    divided by the power of ten, each step exact while the literal has at
    most 15 significant digits, where the one rounding of the division
    gives the float Python's [float] returns. Any other string is refused. *)
Definition digit_value (c : ascii) : option float :=
  (if decide (c = "0") then Some 0
   else if decide (c = "1") then Some 1
   else if decide (c = "2") then Some 2
   else if decide (c = "3") then Some 3
   else if decide (c = "4") then Some 4
   else if decide (c = "5") then Some 5
   else if decide (c = "6") then Some 6
   else if decide (c = "7") then Some 7
   else if decide (c = "8") then Some 8
   else if decide (c = "9") then Some 9
   else None)%char%float.

Fixpoint decimal_digits (s : string) (mantissa scale : float)
    (seen_point seen_digit : bool) : option float :=
  match s with
  | EmptyString => if seen_digit then Some (mantissa / scale)%float else None
  | String c s' =>
      if decide (c = "."%char) then
        if seen_point then None
        else decimal_digits s' mantissa scale true seen_digit
      else
        match digit_value c with
        | Some d =>
            decimal_digits s' (mantissa * 10 + d)%float
              (if seen_point then (scale * 10)%float else scale) seen_point true
        | None => None
        end
  end.

Definition decimal_float (s : string) : option float :=
  match s with
  | String c s' =>
      if decide (c = "-"%char)
      then PrimFloat.opp <$> decimal_digits s' 0%float 1%float false false
      else decimal_digits s 0%float 1%float false false
  | EmptyString => None
  end.

Module Demo.

Definition SYMBOL : string := "BTCUSDT".
Definition TARGET_PROFIT_PERCENT : float := 1%float.
Definition AMOUNT : float := 0.5%float.

(** An order book message with one level on each side. *)
Definition book (b a : string) : BookMessage :=
  mkBookMessage (Some (mkBookData (Some [[b; "1"]]) (Some [[a; "1"]]))).

(** A confirmation of request [n] with order id [oid]. *)
Definition filled (n : nat) (oid : string) : OrderMessage :=
  mkOrderMessage n (Some 0%Z) "OK" (Some (mkOrderData (Some oid))).

(** A refusal of request [n]. *)
Definition refused (n : nat) (msg : string) : OrderMessage :=
  mkOrderMessage n (Some 170131%Z) msg (Some (mkOrderData None)).

(** The bot once the quote 100/101 is cached. *)
Definition quoted : World :=
  mkWorld (set_orderbook_data (mkQuote (Some 100%float) (Some 101%float)) init_bot)
          [] [].

Definition step := step SYMBOL TARGET_PROFIT_PERCENT AMOUNT decimal_float.
Definition run := run SYMBOL TARGET_PROFIT_PERCENT AMOUNT decimal_float.

(** The world a run of events ends in. *)
Definition after (evs : list Event) (w : World) : World :=
  default w (run evs w).

(** The position opened at the ask of 101 under order id [oid]. *)
Definition position (oid : string) : Position :=
  mkPosition oid SYMBOL AMOUNT 101%float
    (calculate_target_price TARGET_PROFIT_PERCENT 101%float).

(** [/trade] with the quote 100/101 cached, up to the sleep inside
    [open_position]. *)
Definition opening : World :=
  after [Feed (book "100" "101"); Cmd_trade; Run 0; Run 0] init_world.

(** ... and once the buy request is sent. *)
Definition requested : World := after [Run 0] opening.

(** ... and once the buy is confirmed under order id X. *)
Definition opened : World := after [Confirm (filled 0 "X"); Run 0] requested.

(** The bid reaches 103 and the monitoring loop sends the sell. *)
Definition closing : World :=
  after [Run 1; Feed (book "103" "104"); Run 1] opened.

(** The first [/trade] timed out; a second one has sent its request. *)
Definition retried : World :=
  after [Timeout 0; Cmd_trade; Run 1; Run 1; Run 1] requested.

(** A second [/trade] arrives while the first sleeps in [open_position];
    both send their request. *)
Definition doubled : World :=
  after [Cmd_trade; Run 1; Run 1; Run 0; Run 1] opening.

End Demo.

(** ** Vocabulary of the further properties *)

Section Further.

Variable SYMBOL : string.
Variable TARGET_PROFIT_PERCENT : float.
Variable AMOUNT : float.
Variable float_of : string -> option float.

(** A world the process can be in: one a run from the start ends in. *)
Definition reachable (w : World) : Prop :=
  exists evs, run SYMBOL TARGET_PROFIT_PERCENT AMOUNT float_of evs init_world
              = Some w.

(** A monitoring coroutine that has not ended. *)
Definition is_monitor (t : Task) : bool :=
  match t with
  | Monitor_new | Monitor_sleep | Monitor_close_wait _ _ _ => true
  | _ => false
  end.

(** A position as lines 145-151 build it from a quote that passed the
    test of line 118. *)
Definition position_ok (p : Position) : Prop :=
  symbol p = SYMBOL
  /\ amount p = AMOUNT
  /\ target_price p = calculate_target_price TARGET_PROFIT_PERCENT (entry_price p)
  /\ (entry_price p =? 0)%float = false.

(** Every [open_position] that waits holds a quote with both prices. *)
Definition waits_ok (w : World) : Prop :=
  forall i orderbook woken,
    pool w !! i = Some (Trade_open_wait orderbook woken) ->
    truthy_price (bid orderbook) = true /\ truthy_price (ask orderbook) = true.

(** A held position has a monitoring coroutine. *)
Definition monitored (w : World) : Prop :=
  active_position (bot w) <> None ->
  exists j t, pool w !! j = Some t /\ is_monitor t = true.

(** The reply of [status_command] when nothing is raised: lines 277-295. *)
Definition status_reply (s : TradingBot) : Reply :=
  match active_position s with
  | None => No_open_position
  | Some p =>
      match bid (orderbook_data s) with
      | Some current_price =>
          if (current_price =? 0)%float then Cannot_get_current_price
          else Current_position (symbol p) (entry_price p) (target_price p)
                 current_price
                 ((current_price / entry_price p - 1) * 100)%float
      | None => Cannot_get_current_price
      end
  end.

(** The test of lines 168 and 175: a bid is cached, is not zero, and has
    reached the target of the position. *)
Definition sell_due (p : Position) (q : Quote) : bool :=
  match bid q with
  | Some current_price =>
      negb (current_price =? 0)%float
      && (target_price p <=? current_price)%float
  | None => false
  end.

(** What every world of a run satisfies. *)
Definition sound (w : World) : Prop :=
  (forall p, active_position (bot w) = Some p -> position_ok p)
  /\ waits_ok w
  /\ monitored w.

(** Number of calls of [ws_public.orderbook_stream] so far. *)
Definition is_orderbook_stream (e : Effect) : bool :=
  match e with
  | Orderbook_stream _ _ => true
  | _ => false
  end.

Definition subscriptions (w : World) : nat :=
  length (List.filter is_orderbook_stream (trace w)).

Definition is_answer (e : Effect) : bool :=
  match e with
  | Answer _ => true
  | _ => false
  end.

(** Number of sell orders given to the gateway so far. *)
Definition is_sell (e : Effect) : bool :=
  match e with
  | Place_order Sell _ _ => true
  | _ => false
  end.

Definition sells_sent (w : World) : nat :=
  length (List.filter is_sell (trace w)).

(** The task a segment leaves in its slot, as [run_task] stores it. *)
Definition left_task (r : result Task) : Task :=
  match r with
  | Return t => t
  | Raise _ => Finished
  end.

(** The quote a sequence of order book messages leaves in a cache that
    held [q]: each message with both prices replaces the pair. *)
Definition latest_quote (messages : list BookMessage) (q : Quote) : Quote :=
  fold_left
    (fun q message =>
       match top_price float_of (fst (message_levels message)),
             top_price float_of (snd (message_levels message)) with
       | Some b, Some a => mkQuote (Some b) (Some a)
       | _, _ => q
       end)
    messages q.

End Further.

(** * Properties *)

(** Unfolding of the statement monad. *)
Ltac unfold_M :=
  unfold try_except, logger, answer, emit, update_bot, self, raise,
    mbind, M_bind, mret, M_ret in *.

Lemma truthy_price_false (v : option float) :
  truthy_price v = false <-> unavailable v.
Proof.
  unfold unavailable. destruct v as [f|]; simpl.
  - rewrite negb_false_iff. split.
    + intros H. right. exists f. split; [reflexivity | exact H].
    + intros [H | (g & Hg & H)]; [discriminate | congruence].
  - split; [intros _; left; reflexivity | reflexivity].
Qed.

Section Quote_cache.

Variable float_of : string -> option float.

Local Abbreviation handle_orderbook := (handle_orderbook float_of).
Local Abbreviation top_price := (top_price float_of).

(** A message that carries both prices overwrites the cached pair. *)
Lemma handle_orderbook_accept (message : BookMessage) (w : World) (b a : float) :
  top_price (fst (message_levels message)) = Some b ->
  top_price (snd (message_levels message)) = Some a ->
  handle_orderbook message w =
    (Return tt,
     mkWorld (set_orderbook_event true
                (set_orderbook_data (mkQuote (Some b) (Some a)) (bot w)))
             (pool w)
             (trace w ++ [Log DEBUG (Orderbook_data_received
                                       (mkQuote (Some b) (Some a)))])).
Proof.
  unfold message_levels, handle_orderbook, py_float.
  destruct message as [[[lb la]|]]; simpl; [|discriminate].
  destruct lb as [[|[|sb rb] lb]|]; simpl; try discriminate.
  destruct la as [[|[|sa ra] la]|]; simpl; try discriminate.
  intros Hb Ha. unfold_M. simpl. rewrite Hb. simpl. rewrite Ha. reflexivity.
Qed.

(** A message that lacks one of the prices is logged and dropped. *)
Lemma handle_orderbook_discard (message : BookMessage) (w : World) :
  top_price (fst (message_levels message)) = None
  \/ top_price (snd (message_levels message)) = None ->
  exists lvl text,
    handle_orderbook message w = (Return tt, said w [Log lvl text]).
Proof.
  unfold message_levels, handle_orderbook, py_float, said.
  destruct message as [[[lb la]|]]; simpl.
  2: { intros _. eexists _, _. unfold_M. reflexivity. }
  destruct lb as [[|[|sb rb] lb]|]; simpl;
    try (intros _; eexists _, _; unfold_M; reflexivity);
    (destruct la as [[|[|sa ra] la]|]; simpl;
     try (intros _; eexists _, _; unfold_M; simpl; reflexivity)).
  - intros _. unfold_M. simpl. destruct (float_of sb); eexists _, _; reflexivity.
  - intros [H | H]; unfold_M; simpl; rewrite H; simpl.
    + eexists _, _; reflexivity.
    + destruct (float_of sb); eexists _, _; reflexivity.
Qed.

(** The cache after a callback is the cache before it, or the pair made
    of both prices of the message: one assignment writes both slots. *)
Lemma handle_orderbook_whole (message : BookMessage) (w : World) :
  let w' := snd (handle_orderbook message w) in
  orderbook_data (bot w') = orderbook_data (bot w)
  \/ exists b a,
       top_price (fst (message_levels message)) = Some b
       /\ top_price (snd (message_levels message)) = Some a
       /\ orderbook_data (bot w') = mkQuote (Some b) (Some a).
Proof.
  destruct (top_price (fst (message_levels message))) as [b|] eqn:Hb.
  - destruct (top_price (snd (message_levels message))) as [a|] eqn:Ha.
    + right. exists b, a. rewrite (handle_orderbook_accept _ w b a Hb Ha).
      auto.
    + left. destruct (handle_orderbook_discard message w) as (l & t & H);
        [right; exact Ha | rewrite H; reflexivity].
  - left. destruct (handle_orderbook_discard message w) as (l & t & H);
      [left; exact Hb | rewrite H; reflexivity].
Qed.

(** C6: for a message whose bid and ask are both present and positive,
    after [handle_orderbook] the reader [get_order_book] returns exactly
    that pair; and whatever the message, the cache a reader finds is the
    previous pair or the whole new pair, never a mix of the two. *)
Theorem C6_update_then_read (message : BookMessage) (w : World) (b a : float) :
  top_price (fst (message_levels message)) = Some b ->
  top_price (snd (message_levels message)) = Some a ->
  (0 <? b)%float = true ->
  (0 <? a)%float = true ->
  let w' := snd (handle_orderbook message w) in
  get_order_book w' = (Return (mkQuote (Some b) (Some a)), w')
  /\ (forall (message0 : BookMessage) (w0 : World),
        let w1 := snd (handle_orderbook message0 w0) in
        fst (get_order_book w1) = Return (orderbook_data (bot w0))
        \/ exists b1 a1,
             top_price (fst (message_levels message0)) = Some b1
             /\ top_price (snd (message_levels message0)) = Some a1
             /\ fst (get_order_book w1) = Return (mkQuote (Some b1) (Some a1))).
Proof.
  intros Hb Ha _ _. split.
  - rewrite (handle_orderbook_accept _ w b a Hb Ha). reflexivity.
  - intros message0 w0.
    destruct (handle_orderbook_whole message0 w0) as [H | (b1 & a1 & H1 & H2 & H)].
    + left. unfold get_order_book. unfold_M. simpl. rewrite H. reflexivity.
    + right. exists b1, a1. split; [exact H1 | split; [exact H2 |]].
      unfold get_order_book. unfold_M. simpl. rewrite H. reflexivity.
Qed.

(** C5, as the code has it: a message in which the bid or the ask is
    missing (no level list, an empty one, an empty first level, or a price
    that is not a number) is logged and dropped, and the bot, the cached
    quote included, is left as it was; whenever the cache is written, both
    slots are written together from the same message. The sign of a price
    is not examined. *)
Theorem C5_missing_price_is_discarded (message : BookMessage) (w : World) :
  top_price (fst (message_levels message)) = None
  \/ top_price (snd (message_levels message)) = None ->
  (exists lvl text,
     handle_orderbook message w = (Return tt, said w [Log lvl text]))
  /\ orderbook_data (bot (snd (handle_orderbook message w)))
     = orderbook_data (bot w)
  /\ (forall (message0 : BookMessage) (w0 : World),
        let w1 := snd (handle_orderbook message0 w0) in
        orderbook_data (bot w1) = orderbook_data (bot w0)
        \/ exists b1 a1,
             top_price (fst (message_levels message0)) = Some b1
             /\ top_price (snd (message_levels message0)) = Some a1
             /\ orderbook_data (bot w1) = mkQuote (Some b1) (Some a1)).
Proof.
  intros H. destruct (handle_orderbook_discard message w H) as (l & t & E).
  split; [exists l, t; exact E |].
  split; [rewrite E; reflexivity |].
  intros message0 w0. apply handle_orderbook_whole.
Qed.

End Quote_cache.

(** C6 at the message [b = 100, a = 101]. *)
Lemma C6_update_then_read_witness :
  get_order_book (snd (handle_orderbook decimal_float (Demo.book "100" "101") init_world))
  = (Return (mkQuote (Some 100%float) (Some 101%float)),
     snd (handle_orderbook decimal_float (Demo.book "100" "101") init_world)).
Proof.
  apply (C6_update_then_read decimal_float (Demo.book "100" "101") init_world
           100%float 101%float); reflexivity.
Defined.

(** C5 at a message without bids. *)
Lemma C5_missing_price_is_discarded_witness :
  orderbook_data
    (bot (snd (handle_orderbook decimal_float
                 (mkBookMessage (Some (mkBookData None (Some [["101"; "1"]]))))
                 Demo.quoted)))
  = mkQuote (Some 100%float) (Some 101%float).
Proof.
  apply (C5_missing_price_is_discarded decimal_float
           (mkBookMessage (Some (mkBookData None (Some [["101"; "1"]]))))
           Demo.quoted).
  left. reflexivity.
Defined.

(** C5 as stated fails: a bid of zero, and a negative bid, are written
    to the cache over the previous quote. *)
Lemma C5_counterexample :
  top_price decimal_float (Some [["0"; "1"]]) = Some 0%float
  /\ (0 <? 0)%float = false
  /\ orderbook_data
       (bot (snd (handle_orderbook decimal_float (Demo.book "0" "101") Demo.quoted)))
     = mkQuote (Some 0%float) (Some 101%float)
  /\ orderbook_data
       (bot (snd (handle_orderbook decimal_float (Demo.book "0" "101") Demo.quoted)))
     <> orderbook_data (bot Demo.quoted)
  /\ top_price decimal_float (Some [["-5"; "1"]]) = Some (-5)%float
  /\ (0 <? -5)%float = false
  /\ orderbook_data
       (bot (snd (handle_orderbook decimal_float (Demo.book "-5" "101") Demo.quoted)))
     = mkQuote (Some (-5)%float) (Some 101%float).
Proof.
  repeat split; try reflexivity.
  intros H. apply (f_equal (fun q => truthy_price (bid q))) in H.
  vm_compute in H. discriminate.
Qed.

(** Unfolding of the segments of the bot. *)
Ltac unfold_bot :=
  unfold trade_command_start, trade_command_open, trade_command_reply,
    trade_command_except, status_command, monitor_position_loop,
    monitor_position_after_wait, monitor_position_closed,
    monitor_position_except, send_notification in *;
  unfold open_position_after_wait, open_position_after_sleep,
    open_position_start, open_position_except, close_position_start,
    close_position_after_wait, close_position_except in *;
  unfold get_order_book, subscribe_to_orderbook, order_response_event_clear,
    place_order, create_task, response_order_id, subscript, operand,
    truediv, said in *;
  unfold_M.

Ltac unfold_step := unfold step.

Ltac unfold_position_step := unfold position_step.

Ltac unfold_run := cbn [run].

Ltac unfold_sound :=
  unfold sound, position_ok, waits_ok, monitored, reachable in *.

Section Lifecycle.

Variable SYMBOL : string.
Variable TARGET_PROFIT_PERCENT : float.
Variable AMOUNT : float.
Variable float_of : string -> option float.

Local Abbreviation calculate_target_price :=
  (calculate_target_price TARGET_PROFIT_PERCENT).
Local Abbreviation open_position_after_sleep :=
  (open_position_after_sleep SYMBOL AMOUNT).
Local Abbreviation open_position_after_wait :=
  (open_position_after_wait SYMBOL TARGET_PROFIT_PERCENT AMOUNT).
Local Abbreviation close_position_start := (close_position_start SYMBOL AMOUNT).
Local Abbreviation position_step :=
  (position_step SYMBOL TARGET_PROFIT_PERCENT AMOUNT).
Local Abbreviation monitor_position_loop := (monitor_position_loop SYMBOL AMOUNT).
Local Abbreviation resume := (resume SYMBOL TARGET_PROFIT_PERCENT AMOUNT).
Local Abbreviation expire := (expire SYMBOL TARGET_PROFIT_PERCENT AMOUNT).
Local Abbreviation step := (step SYMBOL TARGET_PROFIT_PERCENT AMOUNT float_of).
Local Abbreviation run := (run SYMBOL TARGET_PROFIT_PERCENT AMOUNT float_of).

(** *** [open_position] after the wait *)

Lemma open_position_timed_out (orderbook : Quote) (w : World) :
  open_position_after_wait orderbook true w
  = (Return (Returned false),
     said w [Log ERROR Timeout_waiting_for_order_response]).
Proof. unfold_bot. reflexivity. Qed.

Lemma open_position_rejected (orderbook : Quote) (w : World) :
  response_ok (order_response (bot w)) = false ->
  open_position_after_wait orderbook false w
  = (Return (Returned false),
     said w [Log ERROR (Error_opening_position (order_response (bot w)))]).
Proof. intros H. unfold_bot. simpl. rewrite H. reflexivity. Qed.

Lemma open_position_filled (orderbook : Quote) (w : World)
    (m : OrderMessage) (oid : string) (a : float) :
  order_response (bot w) = Some m ->
  retCode m = Some 0%Z ->
  data m = Some (mkOrderData (Some oid)) ->
  ask orderbook = Some a ->
  let position := mkPosition oid SYMBOL AMOUNT a (calculate_target_price a) in
  open_position_after_wait orderbook false w
  = (Return (Returned true),
     mkWorld (set_active_position (Some position) (bot w))
             (pool w ++ [Monitor_new])
             (trace w ++ [Log INFO (Opened_new_position (Some position))])).
Proof.
  intros Hm Hc Hd Ha. unfold_bot. simpl. rewrite Hm. simpl.
  rewrite bool_decide_eq_true_2 by exact Hc.
  rewrite Hd, Ha. reflexivity.
Qed.

(** *** [close_position] after the wait *)

Lemma close_position_timed_out (w : World) :
  close_position_after_wait true w
  = (Return (Returned false),
     said w [Log ERROR Timeout_waiting_for_close_position_response]).
Proof. unfold_bot. reflexivity. Qed.

Lemma close_position_rejected (w : World) :
  response_ok (order_response (bot w)) = false ->
  close_position_after_wait false w
  = (Return (Returned false),
     said w [Log ERROR (Error_closing_position (order_response (bot w)))]).
Proof. intros H. unfold_bot. simpl. rewrite H. reflexivity. Qed.

Lemma close_position_filled (w : World) :
  response_ok (order_response (bot w)) = true ->
  close_position_after_wait false w
  = (Return (Returned true),
     mkWorld (set_active_position None (bot w)) (pool w)
             (trace w ++ [Log INFO (Position_closed_successfully
                                      (order_response (bot w)))])).
Proof. intros H. unfold_bot. simpl. rewrite H. reflexivity. Qed.

(** *** The states of the process *)

Lemma lifecycle_held (w : World) :
  lifecycle w = Open \/ lifecycle w = Closing <-> active_position (bot w) <> None.
Proof.
  unfold lifecycle. destruct (active_position (bot w)) as [p|].
  - destruct (existsb is_closing (pool w)); split; auto; discriminate.
  - destruct (existsb is_opening (pool w)); split;
      (intros [H | H]; discriminate) || (intros H; exfalso; apply H; reflexivity).
Qed.

Lemma existsb_insert_others (test : Task -> bool) (t : Task) (l : list Task) (i : nat) :
  test t = false ->
  (forall j u, j <> i -> l !! j = Some u -> test u = false) ->
  existsb test (<[i := t]> l) = false.
Proof.
  intros Ht. revert i. induction l as [|x l IH]; intros i H; [reflexivity |].
  destruct i as [|i]; simpl.
  - rewrite Ht. simpl. rewrite <- (list_insert_ge l (length l) t) by lia.
    apply IH. intros j u Hj Hu. apply (H (S j) u); [lia | exact Hu].
  - rewrite (H 0 x) by (lia || reflexivity). simpl.
    apply IH. intros j u Hj Hu. apply (H (S j) u); [lia | exact Hu].
Qed.

Lemma existsb_insert_same (test : Task -> bool) (t t' : Task) (l : list Task)
    (i : nat) :
  l !! i = Some t ->
  test t' = test t ->
  existsb test (<[i := t']> l) = existsb test l.
Proof.
  intros Hi Ht. revert i Hi. induction l as [|x l IH]; intros [|i] Hi;
    simpl in *; try discriminate.
  - injection Hi as ->. rewrite Ht. reflexivity.
  - rewrite (IH i Hi). reflexivity.
Qed.

Lemma existsb_insert_other (test : Task -> bool) (t' u : Task) (l : list Task)
    (i j : nat) :
  j <> i ->
  l !! j = Some u ->
  test u = true ->
  existsb test (<[i := t']> l) = true.
Proof.
  intros Hne Hj Hu. apply existsb_exists. exists u. split; [| exact Hu].
  apply list_elem_of_In. apply list_elem_of_lookup. exists j.
  rewrite list_lookup_insert_ne by congruence. exact Hj.
Qed.

(** *** The handlers around the segments *)

Lemma said_said (w : World) (e1 e2 : list Effect) :
  said (said w e1) e2 = said w (e1 ++ e2).
Proof. unfold said. simpl. rewrite <- app_assoc. reflexivity. Qed.

Lemma trade_command_open_failed (segment : M (Step bool)) (w w1 : World) :
  segment w = (Return (Returned false), w1) ->
  trade_command_open segment w
  = (Return Finished, said w1 [Answer Could_not_open_the_position]).
Proof. intros H. unfold_bot. rewrite H. reflexivity. Qed.

Lemma monitor_position_close_failed (timed_out : bool) (w w1 : World) :
  close_position_after_wait timed_out w = (Return (Returned false), w1) ->
  monitor_position_after_wait timed_out w = (Return Monitor_sleep, w1).
Proof.
  intros H. unfold monitor_position_after_wait, monitor_position_except,
    monitor_position_closed.
  unfold_M. rewrite H. reflexivity.
Qed.

(** The tick of the monitoring loop when the bid has reached the target:
    the event is cleared, a sell is sent, the coroutine waits. *)
Lemma monitor_position_loop_close (w : World) (p : Position) (c : float) :
  active_position (bot w) = Some p ->
  bid (orderbook_data (bot w)) = Some c ->
  (c =? 0)%float = false ->
  (target_price p <=? c)%float = true ->
  monitor_position_loop w
  = (Return (Monitor_close_wait (orderbook_data (bot w)) c false),
     mkWorld (set_order_response_event false (bot w)) (pool w)
             (trace w ++ [Order_response_event_clear;
                          Place_order Sell SYMBOL AMOUNT])).
Proof.
  intros Hp Hb Hz Ht. unfold_bot. simpl. rewrite Hp. simpl.
  rewrite Hb. simpl. rewrite Hz. simpl. rewrite Hp. rewrite Ht. simpl.
  rewrite <- app_assoc. reflexivity.
Qed.

(** The tick of the monitoring loop when the bid is unset or zero. *)
Lemma monitor_position_loop_unavailable (w : World) (p : Position) :
  active_position (bot w) = Some p ->
  truthy_price (bid (orderbook_data (bot w))) = false ->
  monitor_position_loop w
  = (Return Monitor_sleep,
     said w [Log WARNING No_orderbook_data_available_for_monitoring]).
Proof.
  intros Hp Hb. unfold_bot. simpl. rewrite Hp. simpl. rewrite Hb. reflexivity.
Qed.

Lemma step_run (w : World) (i : nat) (t : Task) (segment : M Task) :
  pool w !! i = Some t ->
  resume t = Some segment ->
  step (Run i) w = Some (run_task i segment w).
Proof. intros Ht Hs. unfold_step. rewrite Ht. simpl. rewrite Hs. reflexivity. Qed.

Lemma step_timeout (w : World) (i : nat) (t : Task) (segment : M Task) :
  pool w !! i = Some t ->
  expire t = Some segment ->
  step (Timeout i) w = Some (run_task i segment w).
Proof. intros Ht Hs. unfold_step. rewrite Ht. simpl. rewrite Hs. reflexivity. Qed.


(** After a failed close the coroutine sleeps; its next tick is the head
    of the loop, which sends another sell when the bid allows. *)
Lemma monitor_sleep_next_tick (w : World) (i : nat) (effects : list Effect) :
  i < length (pool w) ->
  let w' := mkWorld (bot w) (<[i := Monitor_sleep]> (pool w))
              (trace w ++ effects) in
  step (Run i) w' = Some (run_task i monitor_position_loop w')
  /\ (forall p c,
        active_position (bot w) = Some p ->
        bid (orderbook_data (bot w)) = Some c ->
        (c =? 0)%float = false ->
        (target_price p <=? c)%float = true ->
        step (Run i) w'
        = Some (mkWorld (set_order_response_event false (bot w))
                  (<[i := Monitor_close_wait (orderbook_data (bot w)) c false]>
                     (pool w))
                  (trace w' ++ [Order_response_event_clear;
                                Place_order Sell SYMBOL AMOUNT]))).
Proof.
  intros Hlt w'.
  assert (Hs : pool w' !! i = Some Monitor_sleep)
    by (apply list_lookup_insert_eq; exact Hlt).
  split; [exact (step_run w' i _ _ Hs eq_refl) |].
  intros p c Hp Hb Hz Ht.
  rewrite (step_run w' i _ _ Hs eq_refl). unfold run_task.
  rewrite (monitor_position_loop_close w' p c Hp Hb Hz Ht). simpl.
  rewrite list_insert_insert_eq. reflexivity.
Qed.


(** *** What a segment can do to the position and to the pool *)

(** Case analysis on every test a segment makes. *)
Ltac branches :=
  repeat (simpl;
          match goal with
          | |- context [match ?x with _ => _ end] =>
              lazymatch x with
              | context [match _ with _ => _ end] => fail
              | _ => destruct x eqn:?
              end
          end);
  simpl.

Lemma bot_run_task (i : nat) (segment : M Task) (w : World) :
  bot (run_task i segment w) = bot (snd (segment w)).
Proof. unfold run_task. destruct (segment w) as [[t|e] w']; reflexivity. Qed.

Lemma trace_run_task (i : nat) (segment : M Task) (w : World) :
  trace (run_task i segment w) = trace (snd (segment w)).
Proof. unfold run_task. destruct (segment w) as [[t|e] w']; reflexivity. Qed.

Lemma open_position_after_wait_position (orderbook : Quote) (timed_out : bool)
    (w : World) :
  position_step orderbook w
    (snd (trade_command_open (open_position_after_wait orderbook timed_out) w)).
Proof.
  unfold_position_step. unfold_bot.
  destruct timed_out; simpl; [left; reflexivity |].
  destruct (response_ok (order_response (bot w))); simpl; [| left; reflexivity].
  destruct (order_response (bot w)) as [m|]; simpl; [| left; reflexivity].
  destruct (data m) as [[[oid|]]|]; simpl; try (left; reflexivity).
  destruct (ask orderbook) as [a|] eqn:Ha; simpl; [| left; reflexivity].
  right. right. exists oid, a. split; reflexivity.
Qed.

(** Every other segment keeps the position or clears it. *)
Lemma segment_position (t : Task) (segment : M Task) (w : World) :
  (resume t = Some segment \/ expire t = Some segment) ->
  (forall orderbook woken, t <> Trade_open_wait orderbook woken) ->
  active_position (bot (snd (segment w))) = active_position (bot w)
  \/ active_position (bot (snd (segment w))) = None.
Proof.
  intros Hseg Hnot.
  destruct t as [| | | |ob k| | | |ob cp k];
    try (exfalso; apply (Hnot ob k); reflexivity);
    destruct Hseg as [H | H]; simpl in H; try discriminate;
    try (destruct k; try discriminate);
    injection H as <-; unfold_bot; branches; auto.
Qed.

(** A segment only appends tasks to the pool. *)
Lemma segment_pool (t : Task) (segment : M Task) (w : World) :
  (resume t = Some segment \/ expire t = Some segment) ->
  exists extra, pool (snd (segment w)) = (pool w ++ extra)%list.
Proof.
  intros Hseg.
  destruct t as [| | | |ob k| | | |ob cp k];
    destruct Hseg as [H | H]; simpl in H; try discriminate;
    try (destruct k; try discriminate);
    injection H as <-; unfold_bot; branches;
    solve [exists []; rewrite app_nil_r; reflexivity | eexists; reflexivity].
Qed.

(** *** [open_position] up to the request *)

Lemma open_position_request (w : World) :
  truthy_price (bid (orderbook_data (bot w))) = true ->
  truthy_price (ask (orderbook_data (bot w))) = true ->
  open_position_after_sleep w
  = (Return (Suspended (Trade_open_wait (orderbook_data (bot w)) false)),
     mkWorld (set_order_response_event false (bot w)) (pool w)
             (trace w ++ [Order_response_event_clear;
                          Place_order Buy SYMBOL AMOUNT])).
Proof.
  intros Hb Ha. unfold_bot. simpl. rewrite Hb, Ha. simpl.
  rewrite <- app_assoc. reflexivity.
Qed.

Lemma open_position_no_data (w : World) :
  truthy_price (bid (orderbook_data (bot w))) = false
  \/ truthy_price (ask (orderbook_data (bot w))) = false ->
  open_position_after_sleep w
  = (Return (Returned false),
     said w [Log ERROR Cannot_open_position_no_orderbook_data]).
Proof.
  intros H. unfold_bot. simpl.
  destruct H as [H | H]; rewrite H; simpl.
  - reflexivity.
  - rewrite orb_true_r. reflexivity.
Qed.

(** *** The callbacks leave the position and the tasks alone *)

Lemma handle_orderbook_frame (message : BookMessage) (w : World) :
  let w' := snd (handle_orderbook float_of message w) in
  active_position (bot w') = active_position (bot w)
  /\ order_response (bot w') = order_response (bot w)
  /\ order_response_event (bot w') = order_response_event (bot w)
  /\ pool w' = pool w.
Proof.
  destruct (top_price float_of (fst (message_levels message))) as [b|] eqn:Hb.
  - destruct (top_price float_of (snd (message_levels message))) as [a|] eqn:Ha.
    + rewrite (handle_orderbook_accept float_of _ w b a Hb Ha). simpl. auto.
    + destruct (handle_orderbook_discard float_of message w) as (l & t & H);
        [right; exact Ha | rewrite H; simpl; auto].
  - destruct (handle_orderbook_discard float_of message w) as (l & t & H);
      [left; exact Hb | rewrite H; simpl; auto].
Qed.

Lemma lookup_map_wake (l : list Task) (i : nat) (t : Task) :
  l !! i = Some t -> map wake l !! i = Some (wake t).
Proof.
  revert i. induction l as [|x l IH]; intros [|i] H; simpl in *;
    try discriminate.
  - congruence.
  - apply IH. exact H.
Qed.

(** *** One step of the process *)

(** A step keeps the position or clears it, unless it resumes an
    [open_position] that was woken by a confirmation. *)
Lemma step_position (ev : Event) (w w' : World) :
  step ev w = Some w' ->
  (active_position (bot w') = active_position (bot w)
   \/ active_position (bot w') = None)
  \/ exists i orderbook,
       ev = Run i
       /\ pool w !! i = Some (Trade_open_wait orderbook true)
       /\ position_step orderbook w w'.
Proof.
  intros H. destruct ev as [| |message|message|i|i]; unfold_step; simpl in H.
  - injection H as <-. left. left. reflexivity.
  - injection H as <-. left. left. reflexivity.
  - injection H as <-. left. left. apply handle_orderbook_frame.
  - injection H as <-. left. left. reflexivity.
  - destruct (pool w !! i) as [t|] eqn:Ht; simpl in H; [| discriminate].
    destruct (resume t) as [segment|] eqn:Hs; simpl in H; [| discriminate].
    injection H as <-. rewrite bot_run_task.
    destruct t as [| | | |ob k| | | |ob cp k];
      try (left; apply (segment_position _ segment w (or_introl Hs));
           intros; discriminate).
    destruct k; simpl in Hs; [| discriminate]. injection Hs as <-.
    right. exists i, ob. split; [reflexivity | split; [exact Ht |]].
    unfold_position_step. rewrite bot_run_task.
    apply open_position_after_wait_position.
  - destruct (pool w !! i) as [t|] eqn:Ht; simpl in H; [| discriminate].
    destruct (expire t) as [segment|] eqn:Hs; simpl in H; [| discriminate].
    injection H as <-. rewrite bot_run_task.
    destruct t as [| | | |ob k| | | |ob cp k];
      try (left; apply (segment_position _ segment w (or_intror Hs));
           intros; discriminate).
    destruct k; simpl in Hs; [discriminate |]. injection Hs as <-.
    rewrite (trade_command_open_failed _ w _ (open_position_timed_out ob w)).
    left. left. reflexivity.
Qed.

(** A step that does not run task [i] leaves it as it is; a confirmation
    wakes it when it waits on the event. *)
Lemma step_other_task (ev : Event) (w w' : World) (i : nat) (t : Task) :
  step ev w = Some w' ->
  pool w !! i = Some t ->
  ev <> Run i ->
  ev <> Timeout i ->
  pool w' !! i = Some (match ev with Confirm _ => wake t | _ => t end).
Proof.
  intros H Hi Hrun Htime.
  assert (Hres : forall j u segment,
            j <> i ->
            (resume u = Some segment \/ expire u = Some segment) ->
            pool (run_task j segment w) !! i = Some t).
  { intros j u segment Hj Hseg.
    destruct (segment_pool u segment w Hseg) as [extra Hextra].
    unfold run_task. destruct (segment w) as [[t'|e] w1]; simpl in *;
      rewrite list_lookup_insert_ne by exact Hj; rewrite Hextra;
      apply lookup_app_l_Some; exact Hi. }
  destruct ev as [| |message|message|j|j]; unfold_step; simpl in H.
  - injection H as <-. simpl. apply lookup_app_l_Some. exact Hi.
  - injection H as <-. simpl. apply lookup_app_l_Some. exact Hi.
  - injection H as <-.
    destruct (handle_orderbook_frame message w) as (_ & _ & _ & Hp).
    rewrite Hp. exact Hi.
  - injection H as <-. simpl. apply lookup_map_wake. exact Hi.
  - destruct (pool w !! j) as [u|] eqn:Hu; simpl in H; [| discriminate].
    destruct (resume u) as [segment|] eqn:Hs; simpl in H; [| discriminate].
    injection H as <-. apply (Hres j u segment); [congruence | left; exact Hs].
  - destruct (pool w !! j) as [u|] eqn:Hu; simpl in H; [| discriminate].
    destruct (expire u) as [segment|] eqn:Hs; simpl in H; [| discriminate].
    injection H as <-. apply (Hres j u segment); [congruence | right; exact Hs].
Qed.

(** *** The claims on the lifecycle *)

(** C1, as the code has it: a [/trade] issued while a position is held
    (the process is [Open] or [Closing]) is rejected: the handler replies
    that a position is already open and ends, no order is sent, and the
    bot object, the held position included, is left as it was. *)
Theorem C1_trade_rejected_while_position_held (w : World) (i : nat) :
  lifecycle w = Open \/ lifecycle w = Closing ->
  pool w !! i = Some Trade_new ->
  step (Run i) w
  = Some (mkWorld (bot w) (<[i := Finished]> (pool w))
            (trace w ++ [Answer A_position_is_already_open])).
Proof.
  intros Hheld Hi. apply lifecycle_held in Hheld.
  rewrite (step_run w i _ _ Hi eq_refl). unfold run_task. unfold_bot. simpl.
  destruct (active_position (bot w)); [reflexivity | contradiction].
Qed.

(** C2, evaluated: when the confirmation of the sell is a success,
    [close_position] clears the position and returns [True]; the loop then
    reads [self.active_position['entry_price']] on [None], the
    [TypeError] is caught and logged, and the coroutine sleeps. Nothing is
    given to [send_notification]. *)
Theorem C2_successful_close_sends_no_notification
    (w : World) (i : nat) (order_book : Quote) (current_price : float) :
  pool w !! i = Some (Monitor_close_wait order_book current_price true) ->
  response_ok (order_response (bot w)) = true ->
  step (Run i) w
  = Some (mkWorld (set_active_position None (bot w))
            (<[i := Monitor_sleep]> (pool w))
            (trace w ++ [Log INFO (Position_closed_successfully
                                     (order_response (bot w)));
                         Log ERROR (Error_in_monitor_position TypeError)])).
Proof.
  intros Hi Hok. rewrite (step_run w i _ _ Hi eq_refl). unfold run_task.
  unfold monitor_position_after_wait, monitor_position_except. unfold_M.
  rewrite (close_position_filled w Hok). unfold_bot. simpl.
  rewrite <- app_assoc. reflexivity.
Qed.

(** C3, as the code has it: [open_position] and [close_position] return
    a boolean. A timeout, a confirmation that is not a success and, for
    [open_position], a missing quote all return [False]; what happened is
    told apart by the line written to the log only, and [open_position]
    returns [True] only for a confirmation that arrived and is a success. *)
Theorem C3_failures_share_one_result
    (wt wr wn : World) (orderbook : Quote) :
  response_ok (order_response (bot wr)) = false ->
  truthy_price (bid (orderbook_data (bot wn))) = false
  \/ truthy_price (ask (orderbook_data (bot wn))) = false ->
  open_position_after_wait orderbook true wt
  = (Return (Returned false),
     said wt [Log ERROR Timeout_waiting_for_order_response])
  /\ open_position_after_wait orderbook false wr
     = (Return (Returned false),
        said wr [Log ERROR (Error_opening_position (order_response (bot wr)))])
  /\ open_position_after_sleep wn
     = (Return (Returned false),
        said wn [Log ERROR Cannot_open_position_no_orderbook_data])
  /\ close_position_after_wait true wt
     = (Return (Returned false),
        said wt [Log ERROR Timeout_waiting_for_close_position_response])
  /\ close_position_after_wait false wr
     = (Return (Returned false),
        said wr [Log ERROR (Error_closing_position (order_response (bot wr)))])
  /\ (forall (timed_out : bool) (w w' : World),
        open_position_after_wait orderbook timed_out w
        = (Return (Returned true), w') ->
        timed_out = false /\ response_ok (order_response (bot w)) = true).
Proof.
  intros Hr Hn.
  split; [apply open_position_timed_out |].
  split; [apply open_position_rejected; exact Hr |].
  split; [apply open_position_no_data; exact Hn |].
  split; [apply close_position_timed_out |].
  split; [apply close_position_rejected; exact Hr |].
  intros timed_out w w' H. destruct timed_out.
  - rewrite open_position_timed_out in H. discriminate.
  - split; [reflexivity |].
    destruct (response_ok (order_response (bot w))) eqn:Hok; [reflexivity |].
    rewrite (open_position_rejected orderbook w Hok) in H. discriminate.
Qed.


(** [close_position] up to the request. *)
Lemma close_position_request (order_book : Quote) (current_price : float)
    (w : World) :
  close_position_start order_book current_price w
  = (Return (Suspended (Monitor_close_wait order_book current_price false)),
     mkWorld (set_order_response_event false (bot w)) (pool w)
             (trace w ++ [Order_response_event_clear;
                          Place_order Sell SYMBOL AMOUNT])).
Proof. unfold_bot. simpl. rewrite <- app_assoc. reflexivity. Qed.

(** The timeout of a wait ends the wait. *)
Lemma step_timeout_ends_wait (w w' : World) (i : nat) (t t' : Task) :
  pool w !! i = Some t ->
  step (Timeout i) w = Some w' ->
  pool w' !! i = Some t' ->
  waits_on_event t' = None.
Proof.
  intros Hi Hstep Hi'.
  assert (Hlt : i < length (pool w)) by (eapply lookup_lt_Some; exact Hi).
  unfold_step. simpl in Hstep. rewrite Hi in Hstep. simpl in Hstep.
  destruct (expire t) as [segment|] eqn:Hs; simpl in Hstep; [| discriminate].
  injection Hstep as <-. revert Hi'. unfold run_task.
  destruct t as [| | | |ob [|]| | | |ob cp [|]]; simpl in Hs; try discriminate;
    injection Hs as <-.
  - rewrite (trade_command_open_failed _ w _ (open_position_timed_out ob w)).
    simpl. rewrite list_lookup_insert_eq by exact Hlt. intros [= <-]. reflexivity.
  - rewrite (monitor_position_close_failed _ w _ (close_position_timed_out w)).
    simpl. rewrite list_lookup_insert_eq by exact Hlt. intros [= <-]. reflexivity.
Qed.

(** C9, as the code has it: [open_position] and [close_position] clear
    [order_response_event] and then send the request, and suspend not
    woken, whatever flag and response earlier calls left behind; a wait
    that was not woken cannot complete with a confirmation; and the only
    step that wakes it is the delivery of a confirmation, which is then the
    response the call reads. So a confirmation delivered before the reset
    is never taken for the call's; which request a confirmation delivered
    after the reset answers is not examined. *)
Theorem C9_event_cleared_before_request :
  (forall w : World,
     truthy_price (bid (orderbook_data (bot w))) = true ->
     truthy_price (ask (orderbook_data (bot w))) = true ->
     open_position_after_sleep w
     = (Return (Suspended (Trade_open_wait (orderbook_data (bot w)) false)),
        mkWorld (set_order_response_event false (bot w)) (pool w)
                (trace w ++ [Order_response_event_clear;
                             Place_order Buy SYMBOL AMOUNT])))
  /\ (forall (w : World) (order_book : Quote) (current_price : float),
        close_position_start order_book current_price w
        = (Return (Suspended (Monitor_close_wait order_book current_price false)),
           mkWorld (set_order_response_event false (bot w)) (pool w)
                   (trace w ++ [Order_response_event_clear;
                                Place_order Sell SYMBOL AMOUNT])))
  /\ (forall (w : World) (i : nat) (t : Task),
        pool w !! i = Some t ->
        waits_on_event t = Some false ->
        step (Run i) w = None)
  /\ (forall (ev : Event) (w w' : World) (i : nat) (t t' : Task),
        step ev w = Some w' ->
        pool w !! i = Some t ->
        waits_on_event t = Some false ->
        pool w' !! i = Some t' ->
        waits_on_event t' = Some true ->
        exists message,
          ev = Confirm message /\ order_response (bot w') = Some message).
Proof.
  split; [exact open_position_request |].
  split; [intros; apply close_position_request |].
  split.
  - intros w i t Hi Hw. unfold_step. simpl. rewrite Hi. simpl.
    destruct t as [| | | |ob [|]| | | |ob cp [|]]; simpl in Hw;
      try discriminate; reflexivity.
  - intros ev w w' i t t' Hstep Hi Hw Hi' Hw'.
    assert (Hrun : ev <> Run i).
    { intros ->. revert Hstep. unfold_step. simpl. rewrite Hi. simpl.
      destruct t as [| | | |ob [|]| | | |ob cp [|]]; simpl in Hw;
        try discriminate; simpl; discriminate. }
    assert (Htime : ev <> Timeout i).
    { intros ->.
      rewrite (step_timeout_ends_wait w w' i t t' Hi Hstep Hi') in Hw'.
      discriminate. }
    rewrite (step_other_task ev w w' i t Hstep Hi Hrun Htime) in Hi'.
    destruct ev as [| |message|message|j|j]; injection Hi' as <-;
      try congruence.
    exists message. split; [reflexivity |].
    revert Hstep. unfold_step. simpl. intros [= <-]. reflexivity.
Qed.

(** *** Readers of the quote cache *)

Lemma status_command_unavailable (w : World) (p : Position) :
  active_position (bot w) = Some p ->
  truthy_price (bid (orderbook_data (bot w))) = false ->
  status_command w = (Return Finished, said w [Answer Cannot_get_current_price]).
Proof.
  intros Hp Hb. unfold_bot. simpl. rewrite Hp. simpl. rewrite Hb. reflexivity.
Qed.

Lemma orders_sent_said (w : World) (b : TradingBot) (l : list Task)
    (effects : list Effect) :
  List.filter is_place_order effects = [] ->
  orders_sent (mkWorld b l (trace w ++ effects)) = orders_sent w.
Proof.
  intros H. unfold orders_sent. simpl. rewrite List.filter_app, H, app_nil_r.
  reflexivity.
Qed.

(** With the cached bid unset or zero, no segment sends an order. *)
Lemma segment_orders (t : Task) (segment : M Task) (w : World) :
  (resume t = Some segment \/ expire t = Some segment) ->
  truthy_price (bid (orderbook_data (bot w))) = false ->
  orders_sent (snd (segment w)) = orders_sent w.
Proof.
  intros Hseg Hbid.
  destruct t as [| | | |ob k| | | |ob cp k];
    destruct Hseg as [H | H]; simpl in H; try discriminate;
    try (destruct k; try discriminate);
    injection H as <-; unfold_bot; simpl; try rewrite Hbid; branches;
    rewrite <- ?app_assoc;
    first [ reflexivity
          | apply orders_sent_said; reflexivity
          | exfalso; simpl in *; rewrite ?Hbid in *; simpl in *; congruence ].
Qed.

Lemma step_orders (ev : Event) (w w' : World) :
  step ev w = Some w' ->
  truthy_price (bid (orderbook_data (bot w))) = false ->
  orders_sent w' = orders_sent w.
Proof.
  intros H Hbid. destruct ev as [| |message|message|i|i]; unfold_step; simpl in H.
  - injection H as <-. reflexivity.
  - injection H as <-. reflexivity.
  - injection H as <-.
    destruct (top_price float_of (fst (message_levels message))) as [b|] eqn:Hb;
      [destruct (top_price float_of (snd (message_levels message))) as [a|] eqn:Ha |].
    + rewrite (handle_orderbook_accept float_of _ w b a Hb Ha). simpl.
      apply orders_sent_said. reflexivity.
    + destruct (handle_orderbook_discard float_of message w) as (l & t & E);
        [right; exact Ha | rewrite E; apply orders_sent_said; reflexivity].
    + destruct (handle_orderbook_discard float_of message w) as (l & t & E);
        [left; exact Hb | rewrite E; apply orders_sent_said; reflexivity].
  - injection H as <-. reflexivity.
  - destruct (pool w !! i) as [t|] eqn:Ht; simpl in H; [| discriminate].
    destruct (resume t) as [segment|] eqn:Hs; simpl in H; [| discriminate].
    injection H as <-. unfold orders_sent. rewrite trace_run_task.
    apply (segment_orders t segment w (or_introl Hs) Hbid).
  - destruct (pool w !! i) as [t|] eqn:Ht; simpl in H; [| discriminate].
    destruct (expire t) as [segment|] eqn:Hs; simpl in H; [| discriminate].
    injection H as <-. unfold orders_sent. rewrite trace_run_task.
    apply (segment_orders t segment w (or_intror Hs) Hbid).
Qed.

(** C10, as the code has it: each reader treats a zero in the slots it
    consults as an unset slot. [open_position] consults the bid and the
    ask: with either unset or zero it logs and returns [False] without a
    call to the gateway. [status_command] and the monitoring loop consult
    the bid only: with the bid unset or zero the first replies that the
    price cannot be read, the second logs, sleeps and retries. No step
    sends an order while the cached bid is unset or zero. *)
Theorem C10_zero_price_is_unset :
  (forall w : World,
     unavailable (bid (orderbook_data (bot w)))
     \/ unavailable (ask (orderbook_data (bot w))) ->
     open_position_after_sleep w
     = (Return (Returned false),
        said w [Log ERROR Cannot_open_position_no_orderbook_data]))
  /\ (forall (w : World) (p : Position),
        active_position (bot w) = Some p ->
        unavailable (bid (orderbook_data (bot w))) ->
        status_command w
        = (Return Finished, said w [Answer Cannot_get_current_price]))
  /\ (forall (w : World) (p : Position),
        active_position (bot w) = Some p ->
        unavailable (bid (orderbook_data (bot w))) ->
        monitor_position_loop w
        = (Return Monitor_sleep,
           said w [Log WARNING No_orderbook_data_available_for_monitoring]))
  /\ (forall (ev : Event) (w w' : World),
        step ev w = Some w' ->
        unavailable (bid (orderbook_data (bot w))) ->
        orders_sent w' = orders_sent w).
Proof.
  split; [| split; [| split]].
  - intros w H. apply open_position_no_data.
    destruct H as [H | H]; [left | right]; apply truthy_price_false; exact H.
  - intros w p Hp H. apply (status_command_unavailable w p Hp).
    apply truthy_price_false. exact H.
  - intros w p Hp H. apply (monitor_position_loop_unavailable w p Hp).
    apply truthy_price_false. exact H.
  - intros ev w w' Hstep H. apply (step_orders ev w w' Hstep).
    apply truthy_price_false. exact H.
Qed.

End Lifecycle.

(** * Further properties of the bot *)

Section Coverage.

Variable SYMBOL : string.
Variable TARGET_PROFIT_PERCENT : float.
Variable AMOUNT : float.
Variable float_of : string -> option float.

Local Abbreviation calculate_target_price :=
  (calculate_target_price TARGET_PROFIT_PERCENT).
Local Abbreviation open_position_after_sleep :=
  (open_position_after_sleep SYMBOL AMOUNT).
Local Abbreviation open_position_after_wait :=
  (open_position_after_wait SYMBOL TARGET_PROFIT_PERCENT AMOUNT).
Local Abbreviation monitor_position_loop := (monitor_position_loop SYMBOL AMOUNT).
Local Abbreviation resume := (resume SYMBOL TARGET_PROFIT_PERCENT AMOUNT).
Local Abbreviation expire := (expire SYMBOL TARGET_PROFIT_PERCENT AMOUNT).
Local Abbreviation step := (step SYMBOL TARGET_PROFIT_PERCENT AMOUNT float_of).
Local Abbreviation run := (run SYMBOL TARGET_PROFIT_PERCENT AMOUNT float_of).
Local Abbreviation reachable :=
  (reachable SYMBOL TARGET_PROFIT_PERCENT AMOUNT float_of).
Local Abbreviation position_ok :=
  (position_ok SYMBOL TARGET_PROFIT_PERCENT AMOUNT).
Local Abbreviation sound := (sound SYMBOL TARGET_PROFIT_PERCENT AMOUNT).
Local Abbreviation handle_orderbook := (handle_orderbook float_of).

(** Case analysis on every test a segment makes, innermost first. *)
Ltac branches :=
  repeat (simpl;
          match goal with
          | |- context [match ?x with _ => _ end] =>
              lazymatch x with
              | context [match _ with _ => _ end] => fail
              | _ => destruct x eqn:?
              end
          end);
  simpl.

(** *** No coroutine ends on an exception *)

(** Every segment of [trade_command], [status_command] and
    [monitor_position] returns: whatever is raised inside is caught by
    the [except Exception] of the function or of its caller. *)
Lemma segment_returns (t : Task) (segment : M Task) (w : World) :
  (resume t = Some segment \/ expire t = Some segment) ->
  exists t' w', segment w = (Return t', w').
Proof.
  intros Hseg.
  destruct t as [| | | |ob k| | | |ob cp k];
    destruct Hseg as [H | H]; simpl in H; try discriminate;
    try (destruct k; try discriminate);
    injection H as <-; unfold_bot; branches; eauto.
Qed.

Lemma handle_orderbook_returns (message : BookMessage) (w : World) :
  fst (handle_orderbook message w) = Return tt.
Proof.
  destruct (top_price float_of (fst (message_levels message))) as [b|] eqn:Hb;
    [destruct (top_price float_of (snd (message_levels message))) as [a|] eqn:Ha |].
  - rewrite (handle_orderbook_accept float_of _ w b a Hb Ha). reflexivity.
  - destruct (handle_orderbook_discard float_of message w) as (l & t & E);
      [right; exact Ha | rewrite E; reflexivity].
  - destruct (handle_orderbook_discard float_of message w) as (l & t & E);
      [left; exact Hb | rewrite E; reflexivity].
Qed.

(** The shape of a step that runs a task. *)
Lemma step_task (ev : Event) (i : nat) (w w' : World) :
  ev = Run i \/ ev = Timeout i ->
  step ev w = Some w' ->
  exists t segment t' w1,
    pool w !! i = Some t
    /\ (resume t = Some segment \/ expire t = Some segment)
    /\ segment w = (Return t', w1)
    /\ w' = mkWorld (bot w1) (<[i := t']> (pool w1)) (trace w1).
Proof.
  intros Hev H. unfold_step.
  destruct Hev as [-> | ->]; simpl in H;
    (destruct (pool w !! i) as [t|] eqn:Ht; simpl in H; [| discriminate]).
  - destruct (resume t) as [segment|] eqn:Hs; simpl in H; [| discriminate].
    destruct (segment_returns t segment w (or_introl Hs)) as (t' & w1 & E).
    exists t, segment, t', w1. injection H as <-. unfold run_task. rewrite E. auto.
  - destruct (expire t) as [segment|] eqn:Hs; simpl in H; [| discriminate].
    destruct (segment_returns t segment w (or_intror Hs)) as (t' & w1 & E).
    exists t, segment, t', w1. injection H as <-. unfold run_task. rewrite E. auto.
Qed.

(** *** What a segment leaves behind *)

(** The task a segment leaves in its slot, the tasks it starts and the
    position it leaves: a wait of [open_position] holds a quote with both
    prices; the only task ever started is a monitoring coroutine, and it
    is started exactly when a position is recorded; a monitoring coroutine
    ends only with no position held. *)
Lemma segment_summary (t : Task) (segment : M Task) (w : World) :
  (resume t = Some segment \/ expire t = Some segment) ->
  let t' := left_task (fst (segment w)) in
  let w1 := snd (segment w) in
  (forall orderbook woken,
     t' = Trade_open_wait orderbook woken ->
     truthy_price (bid orderbook) = true /\ truthy_price (ask orderbook) = true)
  /\ (is_monitor t = true ->
      is_monitor t' = true \/ active_position (bot w1) = None)
  /\ ((pool w1 = pool w
       /\ (active_position (bot w1) = active_position (bot w)
           \/ active_position (bot w1) = None))
      \/ (pool w1 = pool w ++ [Monitor_new]
          /\ exists oid a orderbook,
               t = Trade_open_wait orderbook true
               /\ ask orderbook = Some a
               /\ active_position (bot w1)
                  = Some (mkPosition oid SYMBOL AMOUNT a
                            (calculate_target_price a)))).
Proof.
  intros Hseg.
  destruct t as [| | | |ob k| | | |ob cp k];
    destruct Hseg as [H | H]; simpl in H; try discriminate;
    try (destruct k; try discriminate);
    injection H as <-; unfold_bot; branches;
    (split; [intros orderbook woken E; try discriminate |
             split; [intros E; try discriminate; auto |]]);
    try (left; split; [reflexivity | auto; fail]);
    try (right; split; [reflexivity | eexists _, _, _; eauto; fail]).
  all: try (injection E as <- <-).
  all: repeat match goal with
         | H : (_ || _) = false |- _ => apply orb_false_elim in H; destruct H
         | H : negb _ = false |- _ => apply negb_false_iff in H
         end; auto.
  all: right; destruct (active_position (bot w));
    [discriminate | reflexivity].
Qed.

(** A slot of the pool after a segment ran as task [i]. *)
Lemma lookup_run_slot (l extra : list Task) (i j : nat) (t' u : Task) :
  i < length l ->
  <[i := t']> (l ++ extra) !! j = Some u ->
  (j = i /\ u = t') \/ (j <> i /\ l !! j = Some u) \/ u ∈ extra.
Proof.
  intros Hi H. destruct (decide (j = i)) as [-> | Hne].
  - left. rewrite list_lookup_insert_eq in H
      by (rewrite length_app; lia).
    split; [reflexivity | congruence].
  - rewrite list_lookup_insert_ne in H by congruence.
    destruct (decide (j < length l)) as [Hlt | Hge].
    + rewrite lookup_app_l in H by exact Hlt. right. left. auto.
    + rewrite lookup_app_r in H by lia. right. right.
      apply list_elem_of_lookup. eauto.
Qed.

Lemma lookup_map_wake_inv (l : list Task) (i : nat) (u : Task) :
  map wake l !! i = Some u -> exists t, l !! i = Some t /\ u = wake t.
Proof.
  revert i. induction l as [|x l IH]; intros [|i] H; simpl in *;
    try discriminate.
  - exists x. split; [reflexivity | congruence].
  - apply IH. exact H.
Qed.

(** *** The invariant of the process *)

Lemma is_monitor_wake (t : Task) : is_monitor (wake t) = is_monitor t.
Proof. destruct t; reflexivity. Qed.

Lemma sound_init : sound init_world.
Proof.
  unfold_sound. simpl. split; [discriminate |].
  split; [intros i ob k H; rewrite lookup_nil in H; discriminate |].
  intros H. contradiction.
Qed.

(** The commands and the callbacks keep the invariant. *)
Lemma sound_arrival (w : World) (t : Task) :
  sound w ->
  is_monitor t = false -> waits_on_event t = None ->
  sound (mkWorld (bot w) (pool w ++ [t]) (trace w)).
Proof.
  unfold_sound. simpl. intros (Hp & Hw & Hm) Ht1 Ht2.
  split; [exact Hp |]. split.
  - intros i ob k H. apply lookup_app_Some in H.
    destruct H as [H | [_ H]]; [exact (Hw i ob k H) |].
    apply list_lookup_singleton_Some in H. destruct H as [_ ->]. discriminate.
  - intros Hheld. destruct (Hm Hheld) as (j & u & Hj & Hu).
    exists j, u. split; [apply lookup_app_l_Some; exact Hj | exact Hu].
Qed.

Lemma sound_confirm (message : OrderMessage) (w : World) :
  sound w -> sound (snd (handle_order_response message w)).
Proof.
  unfold_sound. simpl. intros (Hp & Hw & Hm).
  split; [exact Hp |]. split.
  - intros i ob k H. apply lookup_map_wake_inv in H.
    destruct H as (t & Ht & E).
    destruct t; simpl in E; try discriminate; injection E as E1 E2;
      subst; exact (Hw i _ _ Ht).
  - intros Hheld. destruct (Hm Hheld) as (j & u & Hj & Hu).
    exists j, (wake u). split; [apply lookup_map_wake; exact Hj |].
    rewrite is_monitor_wake. exact Hu.
Qed.

Lemma sound_feed (message : BookMessage) (w : World) :
  sound w -> sound (snd (handle_orderbook message w)).
Proof.
  destruct (handle_orderbook_frame float_of message w) as (Ha & _ & _ & Hl).
  unfold_sound. rewrite Ha, Hl. auto.
Qed.

(** A segment run as a task keeps the invariant. *)
Lemma sound_task (w w1 : World) (i : nat) (t t' : Task) (segment : M Task) :
  pool w !! i = Some t ->
  (resume t = Some segment \/ expire t = Some segment) ->
  segment w = (Return t', w1) ->
  sound w ->
  sound (mkWorld (bot w1) (<[i := t']> (pool w1)) (trace w1)).
Proof.
  intros Hi Hseg E (Hp & Hw & Hm).
  assert (Hlt : i < length (pool w)) by (eapply lookup_lt_Some; exact Hi).
  destruct (segment_summary t segment w Hseg) as (Swait & Smon & Spos).
  rewrite E in Swait, Smon, Spos. simpl in Swait, Smon, Spos.
  unfold_sound. simpl.
  destruct Spos as [[Hpool Hpos] | [Hpool (oid & a & ob & -> & Ha & Hpos)]].
  - rewrite Hpool. rewrite <- (app_nil_r (pool w)).
    split; [| split].
    + intros p Hp'. destruct Hpos as [Hpos | Hpos]; rewrite Hpos in Hp';
        [exact (Hp p Hp') | discriminate].
    + intros j ob k H. apply (lookup_run_slot _ _ _ _ _ _ Hlt) in H.
      destruct H as [[_ H] | [[_ H] | H]].
      * exact (Swait ob k (eq_sym H)).
      * exact (Hw j ob k H).
      * apply elem_of_nil in H. contradiction.
    + intros Hheld. destruct Hpos as [Hpos | Hpos]; [| contradiction].
      rewrite Hpos in Hheld. destruct (Hm Hheld) as (j & u & Hj & Hu).
      destruct (decide (j = i)) as [-> | Hne].
      * exists i, t'. rewrite app_nil_r.
        split; [apply list_lookup_insert_eq; exact Hlt |].
        rewrite Hi in Hj. injection Hj as <-.
        destruct (Smon Hu) as [H | H]; [exact H |].
        rewrite H in Hpos. rewrite <- Hpos in Hheld. contradiction.
      * exists j, u. rewrite app_nil_r.
        split; [rewrite list_lookup_insert_ne by congruence; exact Hj | exact Hu].
  - rewrite Hpool. split; [| split].
    + intros p Hp'. rewrite Hpos in Hp'. injection Hp' as <-.
      destruct (Hw i ob true Hi) as [_ Hask]. rewrite Ha in Hask.
      simpl in Hask. apply negb_true_iff in Hask. simpl. auto.
    + intros j ob' k H. apply (lookup_run_slot _ _ _ _ _ _ Hlt) in H.
      destruct H as [[_ H] | [[_ H] | H]].
      * exact (Swait ob' k (eq_sym H)).
      * exact (Hw j ob' k H).
      * apply list_elem_of_singleton in H. discriminate.
    + intros _. exists (length (pool w)), Monitor_new.
      split; [| reflexivity].
      rewrite list_lookup_insert_ne by lia.
      rewrite lookup_app_r by lia. rewrite Nat.sub_diag. reflexivity.
Qed.

Lemma sound_step (ev : Event) (w w' : World) :
  step ev w = Some w' -> sound w -> sound w'.
Proof.
  intros H Hs. destruct ev as [| |message|message|i|i].
  - unfold_step. simpl in H. injection H as <-.
    apply sound_arrival; [exact Hs | reflexivity | reflexivity].
  - unfold_step. simpl in H. injection H as <-.
    apply sound_arrival; [exact Hs | reflexivity | reflexivity].
  - unfold_step. simpl in H. injection H as <-. apply sound_feed. exact Hs.
  - unfold_step. simpl in H. injection H as <-. apply sound_confirm. exact Hs.
  - destruct (step_task (Run i) i w w' (or_introl eq_refl) H)
      as (t & segment & t' & w1 & Hi & Hseg & E & ->).
    exact (sound_task w w1 i t t' segment Hi Hseg E Hs).
  - destruct (step_task (Timeout i) i w w' (or_intror eq_refl) H)
      as (t & segment & t' & w1 & Hi & Hseg & E & ->).
    exact (sound_task w w1 i t t' segment Hi Hseg E Hs).
Qed.

Lemma sound_run (evs : list Event) (w w' : World) :
  run evs w = Some w' -> sound w -> sound w'.
Proof.
  revert w. induction evs as [|ev evs IH]; intros w H Hs; simpl in H.
  - injection H as <-. exact Hs.
  - destruct (step ev w) as [w1|] eqn:Hstep; [| discriminate].
    exact (IH w1 H (sound_step ev w w1 Hstep Hs)).
Qed.

Lemma sound_reachable (w : World) : reachable w -> sound w.
Proof. intros [evs H]. exact (sound_run evs init_world w H sound_init). Qed.

(** *** Properties of the coroutines *)

(** X1: No handler ends on an exception: every segment of [trade_command]
    (with the [open_position] it awaits), of [status_command] and of
    [monitor_position] (with the [close_position] it awaits) returns, and
    so does [handle_orderbook], whatever the bot holds and whatever the
    message is. *)
Theorem handlers_catch_every_exception :
  (forall (t : Task) (segment : M Task) (w : World),
     resume t = Some segment \/ expire t = Some segment ->
     exists t' w', segment w = (Return t', w'))
  /\ (forall (message : BookMessage) (w : World),
        fst (handle_orderbook message w) = Return tt).
Proof. split; [exact segment_returns | exact handle_orderbook_returns]. Qed.

(** X2: In every world of a run from the start, the position held was built
    by [open_position]: its symbol and amount are the configured ones, its
    target price is [calculate_target_price] of its entry price, and its
    entry price is not zero. *)
Theorem held_position_is_well_formed (w : World) (p : Position) :
  reachable w ->
  active_position (bot w) = Some p ->
  symbol p = SYMBOL
  /\ amount p = AMOUNT
  /\ target_price p = calculate_target_price (entry_price p)
  /\ (entry_price p =? 0)%float = false.
Proof.
  intros Hr Hp. destruct (sound_reachable w Hr) as (H & _ & _).
  exact (H p Hp).
Qed.

(** X3: In every world of a run from the start, a held position has a
    monitoring coroutine that has not ended: [open_position] starts one
    with every position it records, and [monitor_position] leaves its loop
    only when no position is held. *)
Theorem held_position_is_monitored (w : World) :
  reachable w ->
  active_position (bot w) <> None ->
  exists j t, pool w !! j = Some t /\ is_monitor t = true.
Proof.
  intros Hr Hp. destruct (sound_reachable w Hr) as (_ & _ & H).
  exact (H Hp).
Qed.

(** X4: A confirmation with [retCode] 0 that carries no order id: the
    [KeyError] of [self.order_response['data']['orderId']] is caught by
    [open_position], which logs it and returns [False]; no position is
    recorded although the gateway accepted the buy, no monitoring starts,
    and [/trade] answers that the position could not be opened. *)
Theorem confirmation_without_order_id (w : World) (i : nat)
    (orderbook : Quote) (m : OrderMessage) :
  pool w !! i = Some (Trade_open_wait orderbook true) ->
  order_response (bot w) = Some m ->
  retCode m = Some 0%Z ->
  data m = None \/ data m = Some (mkOrderData None) ->
  step (Run i) w
  = Some (mkWorld (bot w) (<[i := Finished]> (pool w))
            (trace w ++ [Log ERROR (Error_in_open_position KeyError);
                         Answer Could_not_open_the_position])).
Proof.
  intros Hi Hm Hc Hd. rewrite (step_run _ _ _ _ w i _ _ Hi eq_refl).
  unfold run_task. unfold_bot. simpl. rewrite Hm. simpl.
  rewrite bool_decide_eq_true_2 by exact Hc.
  destruct Hd as [-> | ->]; simpl; rewrite <- app_assoc; reflexivity.
Qed.

(** X5: [status_command] only reads: whatever the bot holds it ends, leaves
    the bot object and the tasks as they are, sends no order, and gives
    exactly one reply. *)
Theorem status_command_only_reads (w : World) :
  exists effects,
    status_command w = (Return Finished, said w effects)
    /\ length (List.filter is_answer effects) = 1
    /\ List.filter is_place_order effects = [].
Proof.
  unfold_bot. branches; rewrite <- ?app_assoc; simpl;
    eexists; (split; [reflexivity | split; reflexivity]).
Qed.

(** X6: In every world of a run from the start, [status_command] gives the
    reply of lines 277-295 and never the reply of its [except]: the
    division by the entry price cannot raise, because [open_position]
    refuses a zero ask. With a position and a bid it reports
    [((bid / entry_price) - 1) * 100] as the profit. *)
Theorem status_command_reply (w : World) :
  reachable w ->
  status_command w
  = (Return Finished, said w [Answer (status_reply (bot w))]).
Proof.
  intros Hr. destruct (sound_reachable w Hr) as (Hok & _ & _).
  unfold status_reply. unfold_bot. simpl.
  destruct (active_position (bot w)) as [p|] eqn:Hp; simpl; [| reflexivity].
  destruct (Hok p eq_refl) as (_ & _ & _ & Hentry).
  destruct (bid (orderbook_data (bot w))) as [c|]; simpl; [| reflexivity].
  destruct (c =? 0)%float; simpl; [reflexivity |].
  rewrite Hp. simpl. rewrite Hentry. reflexivity.
Qed.

(** *** The subscription *)

Lemma subscriptions_said (w : World) (b : TradingBot) (l : list Task)
    (effects : list Effect) :
  subscriptions (mkWorld b l (trace w ++ effects))
  = subscriptions w + length (List.filter is_orderbook_stream effects).
Proof.
  unfold subscriptions. simpl. rewrite List.filter_app, length_app. reflexivity.
Qed.

Lemma segment_subscriptions (t : Task) (segment : M Task) (w : World) :
  (resume t = Some segment \/ expire t = Some segment) ->
  subscriptions w = (if is_subscribed (bot w) then 1 else 0) ->
  subscriptions (snd (segment w))
  = (if is_subscribed (bot (snd (segment w))) then 1 else 0).
Proof.
  intros Hseg Hs.
  destruct t as [| | | |ob k| | | |ob cp k];
    destruct Hseg as [H | H]; simpl in H; try discriminate;
    try (destruct k; try discriminate);
    injection H as <-; unfold_bot; branches;
    rewrite <- ?app_assoc; rewrite ?subscriptions_said; simpl;
    repeat match goal with
      | E : negb (is_subscribed (bot w)) = _ |- _ =>
          destruct (is_subscribed (bot w)); simpl in E; try discriminate;
          clear E
      end;
    try rewrite Hs; try lia; try reflexivity; exact Hs.
Qed.

(** X7: Over every run from the start [ws_public.orderbook_stream] is called
    at most once: the number of calls is 1 when [is_subscribed] is set and
    0 otherwise, however many [/trade] commands were handled. *)
Theorem orderbook_subscribed_once (w : World) :
  reachable w ->
  subscriptions w = (if is_subscribed (bot w) then 1 else 0).
Proof.
  intros [evs H]. revert H.
  assert (Hinit : subscriptions init_world
                  = (if is_subscribed (bot init_world) then 1 else 0))
    by reflexivity.
  revert Hinit. generalize init_world as w0. revert w.
  induction evs as [|ev evs IH]; intros w w0 H0 H; simpl in H.
  - injection H as <-. exact H0.
  - destruct (step ev w0) as [w1|] eqn:Hstep; [| discriminate].
    apply (IH w w1); [| exact H]. clear IH H.
    destruct ev as [| |message|message|i|i].
    + revert Hstep. unfold_step. simpl. intros [= <-]. exact H0.
    + revert Hstep. unfold_step. simpl. intros [= <-]. exact H0.
    + revert Hstep. unfold_step. simpl. intros [= <-].
      destruct (top_price float_of (fst (message_levels message))) as [b|] eqn:Hb;
        [destruct (top_price float_of (snd (message_levels message))) as [a|] eqn:Ha |].
      * rewrite (handle_orderbook_accept float_of _ w0 b a Hb Ha). cbn [snd].
        rewrite subscriptions_said. simpl. rewrite H0.
        destruct (is_subscribed (bot w0)); reflexivity.
      * destruct (handle_orderbook_discard float_of message w0) as (l & t & E);
          [right; exact Ha |].
        rewrite E. unfold said. cbn [snd]. rewrite subscriptions_said. simpl.
        rewrite H0. destruct (is_subscribed (bot w0)); reflexivity.
      * destruct (handle_orderbook_discard float_of message w0) as (l & t & E);
          [left; exact Hb |].
        rewrite E. unfold said. cbn [snd]. rewrite subscriptions_said. simpl.
        rewrite H0. destruct (is_subscribed (bot w0)); reflexivity.
    + revert Hstep. unfold_step. simpl. intros [= <-]. exact H0.
    + destruct (step_task (Run i) i w0 w1 (or_introl eq_refl) Hstep)
        as (t & segment & t' & w2 & Hi & Hseg & E & ->).
      pose proof (segment_subscriptions t segment w0 Hseg H0) as Hs.
      rewrite E in Hs. exact Hs.
    + destruct (step_task (Timeout i) i w0 w1 (or_intror eq_refl) Hstep)
        as (t & segment & t' & w2 & Hi & Hseg & E & ->).
      pose proof (segment_subscriptions t segment w0 Hseg H0) as Hs.
      rewrite E in Hs. exact Hs.
Qed.

(** *** The monitoring loop *)

(** X8: One tick of [monitor_position] with a position held. When a bid is
    cached, is not zero and has reached the target, the tick clears the
    event, sends one sell and waits for its confirmation. In every other
    case (no bid, a zero bid, a bid below the target, a bid that is not a
    number) it sends nothing, leaves the bot object as it is and sleeps.
    With no position held the coroutine ends without any effect. *)
Theorem monitor_position_tick :
  (forall (w : World) (p : Position),
     active_position (bot w) = Some p ->
     if sell_due p (orderbook_data (bot w)) then
       exists c,
         bid (orderbook_data (bot w)) = Some c
         /\ monitor_position_loop w
            = (Return (Monitor_close_wait (orderbook_data (bot w)) c false),
               mkWorld (set_order_response_event false (bot w)) (pool w)
                       (trace w ++ [Order_response_event_clear;
                                    Place_order Sell SYMBOL AMOUNT]))
     else
       fst (monitor_position_loop w) = Return Monitor_sleep
       /\ bot (snd (monitor_position_loop w)) = bot w
       /\ pool (snd (monitor_position_loop w)) = pool w
       /\ orders_sent (snd (monitor_position_loop w)) = orders_sent w)
  /\ (forall w : World,
        active_position (bot w) = None ->
        monitor_position_loop w = (Return Finished, w)).
Proof.
  split.
  - intros w p Hp. unfold sell_due.
    destruct (bid (orderbook_data (bot w))) as [c|] eqn:Hb.
    + destruct (c =? 0)%float eqn:Hz; simpl.
      * rewrite (monitor_position_loop_unavailable SYMBOL AMOUNT w p Hp)
          by (rewrite Hb; simpl; rewrite Hz; reflexivity).
        simpl. repeat split. apply orders_sent_said. reflexivity.
      * destruct (target_price p <=? c)%float eqn:Ht.
        -- exists c. split; [reflexivity |].
           apply (monitor_position_loop_close SYMBOL AMOUNT w p c Hp Hb Hz Ht).
        -- unfold_bot. simpl. rewrite Hp. simpl. rewrite Hb. simpl.
           rewrite Hz. simpl. rewrite Hp. rewrite Ht. simpl.
           destruct w; repeat split.
    + rewrite (monitor_position_loop_unavailable SYMBOL AMOUNT w p Hp)
        by (rewrite Hb; reflexivity).
      simpl. repeat split. apply orders_sent_said. reflexivity.
  - intros w Hp. unfold_bot. simpl. rewrite Hp. reflexivity.
Qed.

(** X9: After the confirmation of a sell with [retCode] 0 the monitoring
    coroutine runs twice more and ends: the first run clears the position
    and logs (the confirmation, then the [TypeError] of line 179), the
    second finds no position and leaves the loop. The two runs send no
    order and nothing to Telegram. *)
Theorem monitor_ends_after_confirmed_sell
    (w : World) (i : nat) (order_book : Quote) (current_price : float) :
  pool w !! i = Some (Monitor_close_wait order_book current_price true) ->
  response_ok (order_response (bot w)) = true ->
  run [Run i; Run i] w
  = Some (mkWorld (set_active_position None (bot w))
            (<[i := Finished]> (pool w))
            (trace w ++ [Log INFO (Position_closed_successfully
                                     (order_response (bot w)));
                         Log ERROR (Error_in_monitor_position TypeError)])).
Proof.
  intros Hi Hok.
  assert (Hlt : i < length (pool w)) by (eapply lookup_lt_Some; exact Hi).
  assert (H1 : step (Run i) w
               = Some (mkWorld (set_active_position None (bot w))
                         (<[i := Monitor_sleep]> (pool w))
                         (trace w ++ [Log INFO (Position_closed_successfully
                                                  (order_response (bot w)));
                                      Log ERROR (Error_in_monitor_position
                                                   TypeError)]))).
  { rewrite (step_run _ _ _ _ w i _ _ Hi eq_refl). unfold run_task.
    unfold monitor_position_after_wait, monitor_position_except. unfold_M.
    rewrite (close_position_filled w Hok). unfold_bot. simpl.
    rewrite <- app_assoc. reflexivity. }
  unfold_run. rewrite H1.
  erewrite step_run;
    [| simpl; apply list_lookup_insert_eq; exact Hlt | reflexivity].
  unfold run_task. unfold_bot. simpl.
  rewrite list_insert_insert_eq. reflexivity.
Qed.

(** *** The quote cache over a sequence of updates *)

(** X10: After any sequence of order book messages the cache holds the pair of
    the last message that carried both prices, or what it held before when
    none did; the messages change neither the position nor the tasks. *)
Theorem feeds_leave_latest_quote (messages : list BookMessage) (w : World) :
  exists w',
    run (map Feed messages) w = Some w'
    /\ orderbook_data (bot w')
       = latest_quote float_of messages (orderbook_data (bot w))
    /\ active_position (bot w') = active_position (bot w)
    /\ pool w' = pool w.
Proof.
  revert w. induction messages as [|message messages IH]; intros w.
  - exists w. simpl. auto.
  - destruct (IH (snd (handle_orderbook message w))) as (w' & Hrun & Hq & Hp & Hl).
    destruct (handle_orderbook_frame float_of message w) as (Fp & _ & _ & Fl).
    exists w'. split; [exact Hrun |].
    split; [| split; [rewrite Hp; exact Fp | rewrite Hl; exact Fl]].
    rewrite Hq. simpl. f_equal.
    destruct (top_price float_of (fst (message_levels message))) as [b|] eqn:Hb;
      [destruct (top_price float_of (snd (message_levels message))) as [a|] eqn:Ha |].
    + rewrite (handle_orderbook_accept float_of _ w b a Hb Ha). reflexivity.
    + destruct (handle_orderbook_discard float_of message w) as (l & t & E);
        [right; exact Ha | rewrite E; reflexivity].
    + destruct (handle_orderbook_discard float_of message w) as (l & t & E);
        [left; exact Hb | rewrite E; reflexivity].
Qed.

(** *** A whole [/trade] *)

(** X11: [/trade] from start to end. With no position held and a quote with
    both prices cached, the handler run to its wait, a confirmation with
    [retCode] 0 and an order id, and the handler run again: the position
    is recorded under that order id with the cached ask as entry price,
    exactly one buy was sent, the order book is subscribed, one monitoring
    coroutine was started, the handler has ended, and its last reply
    announces the position. *)
Theorem trade_opens_position (w : World) (i : nat) (b a : float)
    (m : OrderMessage) (oid : string) :
  pool w !! i = Some Trade_new ->
  active_position (bot w) = None ->
  orderbook_data (bot w) = mkQuote (Some b) (Some a) ->
  (b =? 0)%float = false ->
  (a =? 0)%float = false ->
  retCode m = Some 0%Z ->
  data m = Some (mkOrderData (Some oid)) ->
  exists w' earlier,
    run [Run i; Run i; Run i; Confirm m; Run i] w = Some w'
    /\ active_position (bot w')
       = Some (mkPosition oid SYMBOL AMOUNT a (calculate_target_price a))
    /\ is_subscribed (bot w') = true
    /\ pool w' !! i = Some Finished
    /\ pool w' !! length (pool w) = Some Monitor_new
    /\ length (pool w') = S (length (pool w))
    /\ orders_sent w' = S (orders_sent w)
    /\ trace w'
       = earlier
           ++ [Log INFO (Opened_new_position
                           (Some (mkPosition oid SYMBOL AMOUNT a
                                    (calculate_target_price a))));
               Answer (Position_opened SYMBOL a (calculate_target_price a))].
Proof.
  intros Hi Hnone Hq Hb Ha Hc Hd.
  assert (Hlt : i < length (pool w)) by (eapply lookup_lt_Some; exact Hi).
  set (position := mkPosition oid SYMBOL AMOUNT a (calculate_target_price a)).
  set (q := mkQuote (Some b) (Some a)) in *.
  (* lines 306-310: the guard passes *)
  set (w1 := mkWorld (bot w) (<[i := Trade_answer_wait]> (pool w))
               (trace w ++ [Answer Opening_a_position_please_wait])).
  assert (H1 : step (Run i) w = Some w1).
  { rewrite (step_run _ _ _ _ w i _ _ Hi eq_refl). unfold run_task.
    unfold_bot. simpl. rewrite Hnone. reflexivity. }
  (* lines 113-114: the subscription, made once *)
  destruct (subscribe_to_orderbook SYMBOL w1) as [r2 w2] eqn:Hsub.
  assert (Hw2 : r2 = Return tt /\ pool w2 = pool w1
                /\ active_position (bot w2) = None
                /\ orderbook_data (bot w2) = q
                /\ is_subscribed (bot w2) = true
                /\ orders_sent w2 = orders_sent w).
  { revert Hsub. unfold w1. unfold_bot. simpl.
    destruct (is_subscribed (bot w)) eqn:Hs; simpl; intros [= <- <-]; simpl;
      (repeat split; try assumption);
      rewrite <- ?app_assoc; apply orders_sent_said; reflexivity. }
  destruct Hw2 as (-> & Hl2 & Hn2 & Hq2 & Hs2 & Ho2).
  assert (H2 : step (Run i) w1
               = Some (mkWorld (bot w2) (<[i := Trade_open_sleep]> (pool w))
                         (trace w2))).
  { erewrite step_run;
      [| simpl; apply list_lookup_insert_eq; exact Hlt | reflexivity].
    unfold run_task, trade_command_open, trade_command_except,
      open_position_start, open_position_except. unfold_M.
    rewrite Hsub. simpl. rewrite Hl2. simpl.
    rewrite list_insert_insert_eq. reflexivity. }
  (* lines 117-134: the quote is read, the event cleared, the buy sent *)
  set (w3 := mkWorld (set_order_response_event false (bot w2))
               (<[i := Trade_open_wait q false]> (pool w))
               (trace w2 ++ [Order_response_event_clear;
                             Place_order Buy SYMBOL AMOUNT])).
  assert (H3 : step (Run i)
                 (mkWorld (bot w2) (<[i := Trade_open_sleep]> (pool w)) (trace w2))
               = Some w3).
  { erewrite step_run;
      [| simpl; apply list_lookup_insert_eq; exact Hlt | reflexivity].
    unfold run_task, trade_command_open, trade_command_except. unfold_M.
    rewrite open_position_request; simpl; rewrite ?Hq2; simpl;
      rewrite ?Hb, ?Ha; try reflexivity.
    rewrite list_insert_insert_eq. reflexivity. }
  (* lines 72-73: the confirmation *)
  set (w4 := mkWorld
               (set_order_response_event true
                  (set_order_response (Some m) (bot w3)))
               (map wake (pool w3)) (trace w3)).
  assert (H4 : step (Confirm m) w3 = Some w4) by reflexivity.
  (* lines 143-154 and 312-318: the position, the monitor, the reply *)
  set (w5 := mkWorld (set_active_position (Some position) (bot w4))
               (<[i := Finished]> (pool w4 ++ [Monitor_new]))
               (trace w4 ++ [Log INFO (Opened_new_position (Some position));
                             Answer (Position_opened SYMBOL a
                                       (calculate_target_price a))])).
  assert (H5 : step (Run i) w4 = Some w5).
  { erewrite step_run;
      [| simpl; apply lookup_map_wake; apply list_lookup_insert_eq; exact Hlt
       | reflexivity].
    unfold run_task, trade_command_open, trade_command_except. unfold_M.
    rewrite (open_position_filled SYMBOL TARGET_PROFIT_PERCENT AMOUNT
               q w4 m oid a eq_refl Hc Hd eq_refl).
    unfold trade_command_reply, subscript, answer, emit. unfold_M. simpl.
    rewrite <- app_assoc. reflexivity. }
  exists w5, (trace w4).
  split; [unfold_run; rewrite H1, H2, H3, H4, H5; reflexivity |].
  split; [reflexivity |].
  split; [exact Hs2 |].
  assert (Hlen : length (map wake (pool w3)) = length (pool w))
    by (simpl; rewrite length_map, length_insert; reflexivity).
  split; [simpl; apply list_lookup_insert_eq; rewrite length_app; simpl in Hlen; lia |].
  split.
  { simpl. rewrite list_lookup_insert_ne by lia.
    rewrite lookup_app_r by (simpl in Hlen; lia).
    simpl in Hlen. rewrite Hlen, Nat.sub_diag. reflexivity. }
  split.
  { simpl. rewrite length_insert, length_app. simpl in *. rewrite Hlen. simpl. lia. }
  split; [| reflexivity].
  unfold orders_sent in *. simpl.
  rewrite !List.filter_app, !length_app. simpl. rewrite Ho2. lia.
Qed.

(** *** Sells *)

Lemma sells_sent_said (w : World) (b : TradingBot) (l : list Task)
    (effects : list Effect) :
  List.filter is_sell effects = [] ->
  sells_sent (mkWorld b l (trace w ++ effects)) = sells_sent w.
Proof.
  intros H. unfold sells_sent. simpl. rewrite List.filter_app, H, app_nil_r.
  reflexivity.
Qed.

Lemma segment_sells (t : Task) (segment : M Task) (w : World) :
  (resume t = Some segment \/ expire t = Some segment) ->
  active_position (bot w) = None ->
  sells_sent (snd (segment w)) = sells_sent w.
Proof.
  intros Hseg Hnone.
  destruct t as [| | | |ob k| | | |ob cp k];
    destruct Hseg as [H | H]; simpl in H; try discriminate;
    try (destruct k; try discriminate);
    injection H as <-; unfold_bot; simpl; rewrite ?Hnone; branches;
    rewrite <- ?app_assoc;
    first [ reflexivity
          | apply sells_sent_said; reflexivity
          | exfalso; simpl in *; congruence ].
Qed.

(** X12: No step sends a sell while no position is held: the only sell
    is the one of [close_position], called by [monitor_position] in the
    segment that found a position at the head of its loop. *)
Theorem no_sell_without_position (ev : Event) (w w' : World) :
  step ev w = Some w' ->
  active_position (bot w) = None ->
  sells_sent w' = sells_sent w.
Proof.
  intros H Hnone.
  destruct ev as [| |message|message|i|i].
  - revert H. unfold_step. simpl. intros [= <-]. reflexivity.
  - revert H. unfold_step. simpl. intros [= <-]. reflexivity.
  - revert H. unfold_step. simpl. intros [= <-].
    destruct (top_price float_of (fst (message_levels message))) as [b|] eqn:Hb;
      [destruct (top_price float_of (snd (message_levels message))) as [a|] eqn:Ha |].
    + rewrite (handle_orderbook_accept float_of _ w b a Hb Ha). cbn [snd].
      apply sells_sent_said. reflexivity.
    + destruct (handle_orderbook_discard float_of message w) as (l & t & E);
        [right; exact Ha | rewrite E; apply sells_sent_said; reflexivity].
    + destruct (handle_orderbook_discard float_of message w) as (l & t & E);
        [left; exact Hb | rewrite E; apply sells_sent_said; reflexivity].
  - revert H. unfold_step. simpl. intros [= <-]. reflexivity.
  - destruct (step_task (Run i) i w w' (or_introl eq_refl) H)
      as (t & segment & t' & w1 & Hi & Hseg & E & ->).
    pose proof (segment_sells t segment w Hseg Hnone) as Hs.
    rewrite E in Hs. exact Hs.
  - destruct (step_task (Timeout i) i w w' (or_intror eq_refl) H)
      as (t & segment & t' & w1 & Hi & Hseg & E & ->).
    pose proof (segment_sells t segment w Hseg Hnone) as Hs.
    rewrite E in Hs. exact Hs.
Qed.

End Coverage.

(** * The claims at concrete inputs *)

Import Demo.

(** C1 at a [/trade] issued once position X is held. *)
Lemma C1_trade_rejected_while_position_held_witness :
  Demo.step (Run 2) (after [Cmd_trade] opened)
  = Some (mkWorld (bot (after [Cmd_trade] opened))
            (<[2 := Finished]> (pool (after [Cmd_trade] opened)))
            (trace (after [Cmd_trade] opened)
               ++ [Answer A_position_is_already_open])).
Proof.
  apply (C1_trade_rejected_while_position_held
           SYMBOL TARGET_PROFIT_PERCENT AMOUNT decimal_float
           (after [Cmd_trade] opened) 2).
  - left. reflexivity.
  - reflexivity.
Defined.

(** C1 as stated fails: a second [/trade] issued while the first is still
    inside [open_position] (the process is [Opening]) is accepted, sends a
    second buy, and its confirmation overwrites the position the first
    one recorded. *)
Lemma C1_counterexample :
  lifecycle opening = Opening
  /\ Demo.run [Cmd_trade; Run 1] opening
     = Some (mkWorld (bot opening) [Trade_open_sleep; Trade_answer_wait]
               (trace opening ++ [Answer Opening_a_position_please_wait]))
  /\ orders_sent doubled = 2
  /\ active_position (bot (after [Confirm (filled 0 "X"); Run 0] doubled))
     = Some (position "X")
  /\ active_position
       (bot (after [Confirm (filled 0 "X"); Run 0;
                    Confirm (filled 1 "Y"); Run 1] doubled))
     = Some (position "Y")
  /\ pool (after [Confirm (filled 0 "X"); Run 0;
                  Confirm (filled 1 "Y"); Run 1] doubled)
     = [Finished; Finished; Monitor_new; Monitor_new].
Proof. repeat split; vm_compute; reflexivity. Qed.

(** C2 at the confirmation of the sell of position X. *)
Lemma C2_successful_close_sends_no_notification_witness :
  Demo.step (Run 1) (after [Confirm (filled 1 "Y")] closing)
  = Some (mkWorld
            (set_active_position None (bot (after [Confirm (filled 1 "Y")] closing)))
            (<[1 := Monitor_sleep]> (pool (after [Confirm (filled 1 "Y")] closing)))
            (trace (after [Confirm (filled 1 "Y")] closing)
               ++ [Log INFO (Position_closed_successfully
                               (order_response
                                  (bot (after [Confirm (filled 1 "Y")] closing))));
                   Log ERROR (Error_in_monitor_position TypeError)])).
Proof.
  apply (C2_successful_close_sends_no_notification
           SYMBOL TARGET_PROFIT_PERCENT AMOUNT decimal_float
           (after [Confirm (filled 1 "Y")] closing) 1
           (mkQuote (Some 103%float) (Some 104%float)) 103%float).
  - reflexivity.
  - reflexivity.
Defined.

(** The scenario of the specification, from the first quote to the
    confirmed sell: the position is cleared and the process is [Idle], and
    nothing was ever given to the notification sink. *)
Lemma successful_close_scenario :
  active_position (bot (after [Confirm (filled 1 "Y"); Run 1] closing)) = None
  /\ lifecycle (after [Confirm (filled 1 "Y"); Run 1] closing) = Idle
  /\ List.filter is_send_message
       (trace (after [Confirm (filled 1 "Y"); Run 1; Run 1] closing)) = []
  /\ pool (after [Confirm (filled 1 "Y"); Run 1; Run 1] closing)
     = [Finished; Finished].
Proof. repeat split; vm_compute; reflexivity. Qed.

(** C3 at a timeout, a refusal and an empty cache. *)
Lemma C3_failures_share_one_result_witness :
  open_position_after_wait SYMBOL TARGET_PROFIT_PERCENT AMOUNT
    (mkQuote (Some 100%float) (Some 101%float)) true requested
  = (Return (Returned false),
     said requested [Log ERROR Timeout_waiting_for_order_response]).
Proof.
  apply (C3_failures_share_one_result SYMBOL TARGET_PROFIT_PERCENT AMOUNT
           requested
           (after [Confirm (refused 0 "Insufficient balance.")] requested)
           init_world
           (mkQuote (Some 100%float) (Some 101%float))).
  - reflexivity.
  - left. reflexivity.
Defined.

(** C3 as stated fails: a timeout, a refusal by the gateway and a missing
    quote give the caller the same value, and the handler the same reply. *)
Lemma C3_counterexample :
  fst (open_position_after_wait SYMBOL TARGET_PROFIT_PERCENT AMOUNT
         (mkQuote (Some 100%float) (Some 101%float)) true requested)
  = Return (Returned false)
  /\ fst (open_position_after_wait SYMBOL TARGET_PROFIT_PERCENT AMOUNT
            (mkQuote (Some 100%float) (Some 101%float)) false
            (after [Confirm (refused 0 "Insufficient balance.")] requested))
     = Return (Returned false)
  /\ fst (open_position_after_sleep SYMBOL AMOUNT init_world)
     = Return (Returned false)
  /\ fst (close_position_after_wait true closing) = Return (Returned false)
  /\ fst (close_position_after_wait false
            (after [Confirm (refused 1 "Insufficient balance.")] closing))
     = Return (Returned false)
  /\ trace (after [Timeout 0] requested)
     = trace requested ++ [Log ERROR Timeout_waiting_for_order_response;
                           Answer Could_not_open_the_position]
  /\ trace (after [Confirm (refused 0 "Insufficient balance."); Run 0] requested)
     = trace requested
         ++ [Log ERROR (Error_opening_position
                          (Some (refused 0 "Insufficient balance.")));
             Answer Could_not_open_the_position].
Proof. repeat split; vm_compute; reflexivity. Qed.






(** C9 at the wait of the buy of the scenario: not woken, it cannot
    complete. *)
Lemma C9_event_cleared_before_request_witness :
  Demo.step (Run 0) requested = None.
Proof.
  apply (proj1 (proj2 (proj2 (C9_event_cleared_before_request
                                SYMBOL TARGET_PROFIT_PERCENT AMOUNT decimal_float)))
           requested 0
           (Trade_open_wait (mkQuote (Some 100%float) (Some 101%float)) false)).
  - reflexivity.
  - reflexivity.
Defined.

(** C9 as stated fails: the first call sent request 0 and timed out;
    the second call cleared the event and sent request 1; the gateway's
    late confirmation of request 0 then completes the second call's wait,
    and the position is recorded under the order id of request 0. *)
Lemma C9_counterexample :
  trace (after [Timeout 0] requested)
  = trace requested ++ [Log ERROR Timeout_waiting_for_order_response;
                        Answer Could_not_open_the_position]
  /\ orders_sent requested = 1
  /\ orders_sent retried = 2
  /\ order_response_event (bot retried) = false
  /\ pool retried
     = [Finished;
        Trade_open_wait (mkQuote (Some 100%float) (Some 101%float)) false]
  /\ reqId (filled 0 "LATE") = 0
  /\ Demo.run [Confirm (filled 0 "LATE"); Run 1] retried
     = Some (mkWorld
               (set_active_position (Some (position "LATE"))
                  (set_order_response (Some (filled 0 "LATE"))
                     (set_order_response_event true (bot retried))))
               [Finished; Finished; Monitor_new]
               (trace retried
                  ++ [Log INFO (Opened_new_position (Some (position "LATE")));
                      Answer (Position_opened SYMBOL 101%float
                                (calculate_target_price TARGET_PROFIT_PERCENT
                                   101%float))])).
Proof. repeat split; vm_compute; reflexivity. Qed.

(** C10 at the empty cache: [open_position] sends nothing. *)
Lemma C10_zero_price_is_unset_witness :
  open_position_after_sleep SYMBOL AMOUNT init_world
  = (Return (Returned false),
     said init_world [Log ERROR Cannot_open_position_no_orderbook_data]).
Proof.
  apply (proj1 (C10_zero_price_is_unset
                  SYMBOL TARGET_PROFIT_PERCENT AMOUNT decimal_float) init_world).
  left. left. reflexivity.
Defined.

(** C10 as stated fails: with position X held and the cache at bid 103,
    ask 0, [status_command] reports the price and the profit, and the
    monitoring loop evaluates the target and sends the sell. *)
Lemma C10_counterexample :
  orderbook_data (bot (after [Feed (book "103" "0")] opened))
  = mkQuote (Some 103%float) (Some 0%float)
  /\ truthy_price (Some 0%float) = false
  /\ Demo.run [Cmd_status; Run 2] (after [Feed (book "103" "0")] opened)
     = Some (mkWorld (bot (after [Feed (book "103" "0")] opened))
               [Finished; Monitor_new; Finished]
               (trace (after [Feed (book "103" "0")] opened)
                  ++ [Answer (Current_position SYMBOL 101%float
                                (calculate_target_price TARGET_PROFIT_PERCENT
                                   101%float)
                                103%float
                                ((103 / 101 - 1) * 100)%float)]))
  /\ Demo.run [Run 1] (after [Feed (book "103" "0")] opened)
     = Some (mkWorld
               (set_order_response_event false
                  (bot (after [Feed (book "103" "0")] opened)))
               [Finished;
                Monitor_close_wait (mkQuote (Some 103%float) (Some 0%float))
                  103%float false]
               (trace (after [Feed (book "103" "0")] opened)
                  ++ [Order_response_event_clear;
                      Place_order Sell SYMBOL AMOUNT])).
Proof. repeat split; vm_compute; reflexivity. Qed.

(** * The further properties at concrete inputs *)

(** The run that ends in [opened]. *)
Lemma opened_is_reachable :
  reachable SYMBOL TARGET_PROFIT_PERCENT AMOUNT decimal_float opened.
Proof.
  exists [Feed (book "100" "101"); Cmd_trade; Run 0; Run 0; Run 0;
          Confirm (filled 0 "X"); Run 0].
  vm_compute. reflexivity.
Defined.

(** X2 at a concrete input. *)
Lemma held_position_is_well_formed_witness :
  symbol (position "X") = SYMBOL
  /\ amount (position "X") = AMOUNT
  /\ target_price (position "X")
     = calculate_target_price TARGET_PROFIT_PERCENT (entry_price (position "X"))
  /\ (entry_price (position "X") =? 0)%float = false.
Proof.
  apply (held_position_is_well_formed SYMBOL TARGET_PROFIT_PERCENT AMOUNT
           decimal_float opened (position "X")).
  - exact opened_is_reachable.
  - reflexivity.
Defined.

(** X3 at a concrete input. *)
Lemma held_position_is_monitored_witness :
  exists j t, pool opened !! j = Some t /\ is_monitor t = true.
Proof.
  apply (held_position_is_monitored SYMBOL TARGET_PROFIT_PERCENT AMOUNT
           decimal_float opened).
  - exact opened_is_reachable.
  - discriminate.
Defined.

(** X4 at a concrete input. *)
Lemma confirmation_without_order_id_witness :
  Demo.step (Run 0)
    (after [Confirm (mkOrderMessage 0 (Some 0%Z) "OK" None)] requested)
  = Some (mkWorld
            (bot (after [Confirm (mkOrderMessage 0 (Some 0%Z) "OK" None)]
                    requested))
            (<[0 := Finished]>
               (pool (after [Confirm (mkOrderMessage 0 (Some 0%Z) "OK" None)]
                        requested)))
            (trace (after [Confirm (mkOrderMessage 0 (Some 0%Z) "OK" None)]
                      requested)
               ++ [Log ERROR (Error_in_open_position KeyError);
                   Answer Could_not_open_the_position])).
Proof.
  apply (confirmation_without_order_id SYMBOL TARGET_PROFIT_PERCENT AMOUNT
           decimal_float
           (after [Confirm (mkOrderMessage 0 (Some 0%Z) "OK" None)] requested)
           0 (mkQuote (Some 100%float) (Some 101%float))
           (mkOrderMessage 0 (Some 0%Z) "OK" None)).
  - reflexivity.
  - reflexivity.
  - reflexivity.
  - left. reflexivity.
Defined.

(** X6 at a concrete input. *)
Lemma status_command_reply_witness :
  status_command opened
  = (Return Finished, said opened [Answer (status_reply (bot opened))]).
Proof.
  apply (status_command_reply SYMBOL TARGET_PROFIT_PERCENT AMOUNT
           decimal_float opened).
  exact opened_is_reachable.
Defined.

(** X7 at a concrete input. Two [/trade] commands in flight: one subscription. *)
Lemma orderbook_subscribed_once_witness :
  subscriptions doubled = (if is_subscribed (bot doubled) then 1 else 0).
Proof.
  apply (orderbook_subscribed_once SYMBOL TARGET_PROFIT_PERCENT AMOUNT
           decimal_float doubled).
  exists [Feed (book "100" "101"); Cmd_trade; Run 0; Run 0;
          Cmd_trade; Run 1; Run 1; Run 0; Run 1].
  vm_compute. reflexivity.
Defined.

(** X9 at a concrete input. *)
Lemma monitor_ends_after_confirmed_sell_witness :
  Demo.run [Run 1; Run 1] (after [Confirm (filled 1 "Y")] closing)
  = Some (mkWorld
            (set_active_position None
               (bot (after [Confirm (filled 1 "Y")] closing)))
            (<[1 := Finished]> (pool (after [Confirm (filled 1 "Y")] closing)))
            (trace (after [Confirm (filled 1 "Y")] closing)
               ++ [Log INFO (Position_closed_successfully
                               (order_response
                                  (bot (after [Confirm (filled 1 "Y")] closing))));
                   Log ERROR (Error_in_monitor_position TypeError)])).
Proof.
  apply (monitor_ends_after_confirmed_sell SYMBOL TARGET_PROFIT_PERCENT AMOUNT
           decimal_float (after [Confirm (filled 1 "Y")] closing) 1
           (mkQuote (Some 103%float) (Some 104%float)) 103%float).
  - reflexivity.
  - reflexivity.
Defined.

(** X11 at a concrete input. *)
Lemma trade_opens_position_witness :
  exists w' earlier,
    Demo.run [Run 0; Run 0; Run 0; Confirm (filled 0 "X"); Run 0]
      (after [Cmd_trade] quoted) = Some w'
    /\ active_position (bot w') = Some (position "X")
    /\ is_subscribed (bot w') = true
    /\ pool w' !! 0 = Some Finished
    /\ pool w' !! length (pool (after [Cmd_trade] quoted)) = Some Monitor_new
    /\ length (pool w') = S (length (pool (after [Cmd_trade] quoted)))
    /\ orders_sent w' = S (orders_sent (after [Cmd_trade] quoted))
    /\ trace w'
       = earlier
           ++ [Log INFO (Opened_new_position (Some (position "X")));
               Answer (Position_opened SYMBOL 101%float
                         (calculate_target_price TARGET_PROFIT_PERCENT
                            101%float))].
Proof.
  apply (trade_opens_position SYMBOL TARGET_PROFIT_PERCENT AMOUNT
           decimal_float (after [Cmd_trade] quoted) 0 100%float 101%float
           (filled 0 "X") "X"); reflexivity.
Defined.

(** X12 at a concrete input: the buy request of the scenario. *)
Lemma no_sell_without_position_witness :
  sells_sent requested = sells_sent opening.
Proof.
  apply (no_sell_without_position SYMBOL TARGET_PROFIT_PERCENT AMOUNT
           decimal_float (Run 0) opening requested).
  - reflexivity.
  - reflexivity.
Defined.
